(** * Honyaku Assist: the translation front end and its usage tracker

    A shallow embedding of [honyaku_assist/utils.py] and
    [honyaku_assist/views.py], followed by the properties of the direction
    resolver, the Google usage tracker, the two provider adapters and the
    form page handler.

    Conventions of the embedding.
    - A Python [str] is a [string]; every element stands for one character,
      so that [len] is [String.length], [+] is [append] and [==] is
      [String.eqb].
    - A Python [int] is a [Z]; the object a DeepL translation comes back as
      is a [TextResult].
    - A call that may raise yields an [outcome]; the database table of the
      [Engine] model is threaded explicitly through the tracker. *)

From Stdlib Require Import ZArith String List Bool Lia Sorted DecimalString.
Import ListNotations.
Open Scope string_scope.
Open Scope Z_scope.

(** ** Python values, exceptions and outcomes *)

(** The exception classes the two files can meet. [DeepLException] stands
    for the class and all its subclasses (authorization, quota, connection):
    an [except DeepLException] clause catches them alike. The others are
    subclasses of [Exception] only. *)
Inductive exc_class : Type :=
| DeepLException
| EnvError
| ValueError
| IndexError
| TypeError
| OSError.

(** A raised exception: its class and its [str(e)]. *)
Record exc : Type := mk_exc { exc_cls : exc_class; str_exc : string }.

Definition isinstance_DeepLException (e : exc) : bool :=
  match exc_cls e with
  | DeepLException => true
  | _ => false
  end.

Inductive outcome (A : Type) : Type :=
| Returned (a : A)
| Raised (e : exc).
Arguments Returned {A} a.
Arguments Raised {A} e.

(** The object [translator.translate_text] returns for one text: the class
    [TextResult] of the DeepL SDK. It defines [__str__], which gives [text],
    and none of [__add__], [__bool__], [__len__]. *)
Record TextResult : Type := mk_TextResult { text : string }.

(** The values held by the [result] and [usage] variables of the DeepL
    adapter and by the template context: a [str], an [int] or a
    [TextResult]. *)
Inductive pyval : Type :=
| PStr (s : string)
| PInt (z : Z)
| PTextResult (r : TextResult).

(** [len(s)] *)
Definition len (s : string) : Z := Z.of_nat (String.length s).

(** Truth value of a [str]: non-empty. *)
Definition truthy_str (s : string) : bool :=
  match s with
  | EmptyString => false
  | String _ _ => true
  end.

(** Truth value of a [str] or [int]; an object whose class defines neither
    [__bool__] nor [__len__] is true. *)
Definition truthy (v : pyval) : bool :=
  match v with
  | PStr s => truthy_str s
  | PInt z => negb (z =? 0)
  | PTextResult _ => true
  end.

(** [str(v)] *)
Definition py_str (v : pyval) : string :=
  match v with
  | PStr s => s
  | PInt z => NilZero.string_of_int (Z.to_int z)
  | PTextResult r => text r
  end.

(** [type(v).__name__] *)
Definition type_name (v : pyval) : string :=
  match v with
  | PStr _ => "str"
  | PInt _ => "int"
  | PTextResult _ => "TextResult"
  end.

(** [a + b]: concatenation of two [str], sum of two [int], and [TypeError]
    for operands whose classes define no addition with each other. *)
Definition py_add (a b : pyval) : outcome pyval :=
  match a, b with
  | PStr x, PStr y => Returned (PStr (x ++ y))
  | PInt x, PInt y => Returned (PInt (x + y))
  | _, _ =>
      Raised (mk_exc TypeError
        ("unsupported operand type(s) for +: '" ++ type_name a
           ++ "' and '" ++ type_name b ++ "'"))
  end.

(** Sequencing of two steps that may raise. *)
Definition and_then {A B : Type} (o : outcome A) (k : A -> outcome B)
    : outcome B :=
  match o with
  | Returned a => k a
  | Raised e => Raised e
  end.

(** ** The outside world *)

(** [timezone.now()]: the two attributes the tracker reads. *)
Record datetime : Type := mk_datetime { year : Z; month : Z }.

(** Modelled from the spec: the DeepL SDK, an opaque service: a translation
    call and a usage query that returns a remote character count; each call
    either returns or raises.
    - [deepl_Translator] is [deepl.Translator(env.str("DEEPL_AUTH_KEY"))];
    - [deepl_translate_text] is [translator.translate_text(...)], which
      returns a [TextResult] (the view takes its [str] before [len]);
    - [deepl_usage_count] is [translator.get_usage().character.count]. *)
Record deepl_sdk : Type := mk_deepl_sdk {
  deepl_Translator : outcome unit;
  deepl_translate_text : string -> string -> string -> outcome TextResult;
  deepl_usage_count : outcome pyval
}.

(** Modelled from the spec: the Google SDK, an opaque service.
    - [google_client] is the reading of the credentials file named by
      [GOOGLE_PROJECT_CREDENTIALS] and the construction of the client;
    - [google_project_id] is [env.str("GOOGLE_PROJECT_ID")];
    - [google_translate_text parent text source target] is
      [client.translate_text(request=...)], returning the [translated_text]
      of each element of [response.translations]. *)
Record google_sdk : Type := mk_google_sdk {
  google_client : outcome unit;
  google_project_id : outcome string;
  google_translate_text :
    string -> string -> string -> string -> outcome (list string)
}.

(** ** The Engine table *)

(** Modelled from the spec: a row of the [Engine] model ([models.py]): the
    provider name, the accumulated usage count, the month and the year of the
    last reset. [pk] is the primary key Django gives every row. *)
Record Engine : Type := mk_Engine {
  pk : Z;
  name : string;
  current_usage : Z;
  month_usage_last_reset : Z;
  year_usage_last_reset : Z
}.

Definition Table : Type := list Engine.

(** A computation over the table that may raise; the table after a raise is
    the table at the point of the raise. *)
Definition M (A : Type) : Type := Table -> outcome A * Table.

Definition ret {A} (a : A) : M A := fun t => (Returned a, t).

Definition raise {A} (e : exc) : M A := fun t => (Raised e, t).

Definition bind {A B} (m : M A) (k : A -> M B) : M B :=
  fun t =>
    match m t with
    | (Returned a, t') => k a t'
    | (Raised e, t') => (Raised e, t')
    end.

Declare Scope tracker_scope.
Delimit Scope tracker_scope with tracker.
Notation "x <- m ;; k" := (bind m (fun x => k))
  (at level 61, m at next level, right associativity) : tracker_scope.
Notation "m ;;; k" := (bind m (fun _ => k))
  (at level 61, right associativity) : tracker_scope.

(** [Engine.objects.filter(name=n)]: the rows of that name, in table order. *)
Definition objects_filter (n : string) (t : Table) : list Engine :=
  filter (fun e => String.eqb (name e) n) t.

(** [queryset[0]]: the first row, [IndexError] on an empty query set. *)
Definition first_row (q : list Engine) : outcome Engine :=
  match q with
  | e :: _ => Returned e
  | [] => Raised (mk_exc IndexError "list index out of range")
  end.

Definition objects_filter_0 (n : string) : M Engine :=
  fun t => (first_row (objects_filter n t), t).

(** [e.save()]: the row of the same primary key is overwritten; a row is
    inserted when there is none. *)
Definition save (e : Engine) : M unit :=
  fun t =>
    if existsb (fun r => pk r =? pk e) t
    then (Returned tt, map (fun r => if pk r =? pk e then e else r) t)
    else (Returned tt, (t ++ [e])%list).

(** Equality of two [(month, year)] tuples. *)
Definition date_eqb (a b : Z * Z) : bool :=
  (fst a =? fst b) && (snd a =? snd b).

(** ** utils.py *)

Module Utils.

Definition translation_direction (direction : string) : string * string :=
  if String.eqb direction "Ja>En"
  then ("ja", "en-us")
  else ("en", "ja").

(** Three [try] blocks, each catching [DeepLException] only and returning
    from its handler. *)
Definition call_deepl_api (sdk : deepl_sdk)
    (source_text source_lang target_lang : string)
    : outcome (pyval * pyval) :=
  match deepl_Translator sdk with
  | Raised e =>
      if isinstance_DeepLException e
      then Returned
             (PStr ("(DeepL authentication error: " ++ str_exc e ++ ")"),
              PStr "(Unknown)")
      else Raised e
  | Returned _ =>
      match deepl_translate_text sdk source_text source_lang target_lang with
      | Raised e =>
          if isinstance_DeepLException e
          then Returned
                 (PStr ("(DeepL translation error: " ++ str_exc e ++ ")"),
                  PStr "(Unknown)")
          else Raised e
      | Returned result =>
          match deepl_usage_count sdk with
          | Raised e =>
              if isinstance_DeepLException e
              then Returned (PTextResult result,
                             PStr ("(DeepL usage error: " ++ str_exc e ++ ")"))
              else Raised e
          | Returned usage => Returned (PTextResult result, usage)
          end
      end
  end.

(** The two readings of the clock are the two calls of [timezone.now()]
    that build [current_date]. *)
Definition current_date (now1 now2 : datetime) : Z * Z :=
  (month now1, year now2).

Definition last_reset_date (google_engine : Engine) : Z * Z :=
  (month_usage_last_reset google_engine, year_usage_last_reset google_engine).

Definition get_google_usage (now1 now2 : datetime) (source_text : string)
    : M Z :=
  (google_engine <- objects_filter_0 "Google" ;;
   let google_engine :=
     if negb (date_eqb (last_reset_date google_engine)
                       (current_date now1 now2))
     then {| pk := pk google_engine;
             name := name google_engine;
             current_usage := len source_text;
             month_usage_last_reset := fst (current_date now1 now2);
             year_usage_last_reset := snd (current_date now1 now2) |}
     else {| pk := pk google_engine;
             name := name google_engine;
             current_usage := current_usage google_engine + len source_text;
             month_usage_last_reset := month_usage_last_reset google_engine;
             year_usage_last_reset := year_usage_last_reset google_engine |}
   in
   save google_engine ;;;
   ret (current_usage google_engine))%tracker.

(** The body of the [try] block of the Google adapter: what it assigns to
    [result], or the exception that leaves it. *)
Definition google_try_block (sdk : google_sdk)
    (source_text source_lang target_lang : string) : outcome string :=
  match google_client sdk with
  | Raised e => Raised e
  | Returned _ =>
      match google_project_id sdk with
      | Raised e => Raised e
      | Returned project_id =>
          let location := "global" in
          let parent :=
            "projects/" ++ project_id ++ "/locations/" ++ location in
          match google_translate_text sdk parent source_text
                  source_lang target_lang with
          | Raised e => Raised e
          | Returned translations =>
              match translations with
              | [] => Raised (mk_exc IndexError "list index out of range")
              | translated_text :: _ =>
                  if truthy_str translated_text
                  then Returned translated_text
                  else Returned
                    "(Error: Translation not included in response from Google)"
              end
          end
      end
  end.

(** [except Exception] catches every class of [exc_class]. *)
Definition google_result (sdk : google_sdk)
    (source_text source_lang target_lang : string) : string :=
  match google_try_block sdk source_text source_lang target_lang with
  | Returned result => result
  | Raised e => "(Error: " ++ str_exc e ++ ")"
  end.

Definition call_google_api_v3 (sdk : google_sdk) (now1 now2 : datetime)
    (source_text source_lang target_lang : string) : M (string * Z) :=
  (let result := google_result sdk source_text source_lang target_lang in
   usage <- get_google_usage now1 now2 source_text ;;
   ret (result, usage))%tracker.

End Utils.

(** ** views.py *)

(** Modelled from the spec: the two-field form of [forms.py] (direction,
    source text). A form is unbound ([InputForm()]) or bound to the posted
    data ([InputForm(request.POST)]). *)
Record InputForm : Type := mk_InputForm {
  form_data : option (list (string * string))
}.

Record HttpRequest : Type := mk_HttpRequest {
  method : string;
  POST : list (string * string)
}.

(** A value of a template context. *)
Inductive ctxval : Type :=
| CPy (v : pyval)
| CForm (f : InputForm).

Record HttpResponse : Type := mk_HttpResponse {
  status_code : Z;
  template_name : string;
  context : list (string * ctxval)
}.

(** [django.shortcuts.render]: the template rendered with the context, in an
    [HttpResponse] of the default status, 200. *)
Definition render (request : HttpRequest) (template : string)
    (ctx : list (string * ctxval)) : HttpResponse :=
  {| status_code := 200; template_name := template; context := ctx |}.

(** The character ["\n"]. *)
Definition nl : string := String (Ascii.ascii_of_nat 10) EmptyString.

Module Views.

Definition translation_direction (direction : string) : string * string :=
  if String.eqb direction "Ja>En"
  then ("ja", "en-us")
  else ("en", "ja").

(** The [try] block of the DeepL adapter: the values of the local
    variables [result] and [usage] when the block is left, and the
    exception that left it, if any. *)
Definition deepl_try_block (sdk : deepl_sdk)
    (source_text source_lang target_lang : string)
    : (pyval * pyval) * option exc :=
  let result := PStr "" in
  let usage := PStr "" in
  match deepl_Translator sdk with
  | Raised e => ((result, usage), Some e)
  | Returned _ =>
      match deepl_translate_text sdk source_text source_lang target_lang with
      | Raised e => ((result, usage), Some e)
      | Returned result =>
          match deepl_usage_count sdk with
          | Raised e => ((PTextResult result, usage), Some e)
          | Returned usage => ((PTextResult result, usage), None)
          end
      end
  end.

(** The two handlers, [except DeepLException] and [except Exception]. An
    exception raised inside a handler, as by [result + ...] on a
    [TextResult], is caught by neither of them and leaves the function. *)
Definition call_deepl_api (sdk : deepl_sdk)
    (source_text source_lang target_lang : string)
    : outcome (pyval * pyval) :=
  match deepl_try_block sdk source_text source_lang target_lang with
  | ((result, usage), None) => Returned (result, usage)
  | ((result, usage), Some e) =>
      if isinstance_DeepLException e
      then
        and_then
          (if truthy result
           then
             and_then (py_add result (PStr (nl ++ "(DeepL Error: ")))
               (fun r => and_then (py_add r (PStr (str_exc e)))
                  (fun r => py_add r (PStr ")")))
           else Returned (PStr ("(DeepL Error: " ++ str_exc e ++ ")")))
          (fun result =>
             let usage :=
               if negb (truthy usage) then PStr "(Error)" else usage in
             Returned (result, usage))
      else
        and_then
          (if truthy result
           then
             and_then (py_add result (PStr "(Error: "))
               (fun r => and_then (py_add r (PStr (str_exc e)))
                  (fun r => py_add r (PStr ")")))
           else Returned (PStr ("(Error: " ++ str_exc e ++ ")")))
          (fun result =>
             let usage :=
               if negb (truthy usage) then PStr "(Error)" else usage in
             Returned (result, usage))
  end.

(** The same [try] block as in [utils.py]; no usage is computed here. *)
Definition call_google_api_v3 (sdk : google_sdk)
    (source_text source_lang target_lang : string) : outcome string :=
  match Utils.google_try_block sdk source_text source_lang target_lang with
  | Returned result => Returned result
  | Raised e => Returned ("(Error: " ++ str_exc e ++ ")")
  end.

Section Handler.

(** Modelled from the spec: the validation of [forms.py]. On the posted
    data it gives the cleaned [(direction, source_text)] when the form is
    valid and nothing when it is not. *)
Variable cleaned_data : list (string * string) -> option (string * string).

Variable deepl : deepl_sdk.
Variable google : google_sdk.

Definition homepage_view (request : HttpRequest) : outcome HttpResponse :=
  if String.eqb (method request) "POST"
  then
    let form := {| form_data := Some (POST request) |} in
    match cleaned_data (POST request) with
    | Some (direction, source_text) =>
        let source_text_length := len source_text in
        let '(source_lang, target_lang) :=
          translation_direction direction in
        match call_deepl_api deepl source_text source_lang target_lang with
        | Raised e => Raised e
        | Returned (deepl_result, deepl_usage) =>
            let deepl_result_length := len (py_str deepl_result) in
            match call_google_api_v3 google source_text
                    source_lang target_lang with
            | Raised e => Raised e
            | Returned google_result =>
                let google_result_length := len google_result in
                Returned (render request "output.html"
                  [ ("source_text", CPy (PStr source_text));
                    ("source_text_length", CPy (PInt source_text_length));
                    ("source_lang", CPy (PStr source_lang));
                    ("target_lang", CPy (PStr target_lang));
                    ("deepl_result", CPy deepl_result);
                    ("deepl_result_length", CPy (PInt deepl_result_length));
                    ("deepl_usage", CPy deepl_usage);
                    ("google_result", CPy (PStr google_result));
                    ("google_result_length",
                      CPy (PInt google_result_length)) ])
            end
        end
    | None => Returned (render request "input.html" [("form", CForm form)])
    end
  else
    let form := {| form_data := None |} in
    Returned (render request "input.html" [("form", CForm form)]).

End Handler.

End Views.

(** ** Sequential runs of the usage tracker *)

(** The record the tracker works on: [Engine.objects.filter(name="Google")[0]]. *)
Definition stored (t : Table) : outcome Engine :=
  first_row (objects_filter "Google" t).

(** The branch [get_google_usage] takes on table [t]: [true] for the reset
    branch ([last_reset_date != current_date]), [false] for the additive one. *)
Definition reset_due (now1 now2 : datetime) (t : Table) : bool :=
  match stored t with
  | Returned e =>
      negb (date_eqb (Utils.last_reset_date e) (Utils.current_date now1 now2))
  | Raised _ => false
  end.

(** One call of the tracker: the two clock readings and the submitted text. *)
Record call : Type := mk_call {
  call_now1 : datetime;
  call_now2 : datetime;
  call_text : string
}.

(** What one call of a run did: the branch taken, the text and the value
    returned (or the exception raised). *)
Record step : Type := mk_step {
  step_reset : bool;
  step_text : string;
  step_usage : outcome Z
}.

(** The calls made one after the other, each on the table the previous one
    left. *)
Fixpoint run (calls : list call) (t : Table) : list step * Table :=
  match calls with
  | [] => ([], t)
  | c :: rest =>
      let '(r, t') :=
        Utils.get_google_usage (call_now1 c) (call_now2 c) (call_text c) t in
      let '(steps, t'') := run rest t' in
      (mk_step (reset_due (call_now1 c) (call_now2 c) t) (call_text c) r
         :: steps, t'')
  end.

(** The texts submitted since the last reset, after the steps of a run:
    [prior] are those submitted since the last reset before the run. *)
Fixpoint since_last_reset (prior : list string) (steps : list step)
    : list string :=
  match steps with
  | [] => prior
  | s :: rest =>
      since_last_reset
        (if step_reset s then [step_text s] else (prior ++ [step_text s])%list)
        rest
  end.

Definition total_len (texts : list string) : Z :=
  fold_right (fun s acc => len s + acc) 0 texts.

(** A call made in the calendar month [(m, y)]: both clock readings fall in
    it. *)
Definition in_month (m y : Z) (c : call) : Prop :=
  month (call_now1 c) = m /\ year (call_now1 c) = y /\
  month (call_now2 c) = m /\ year (call_now2 c) = y.

(** The values returned by the steps of a run. *)
Fixpoint returned_usages (steps : list step) : list Z :=
  match steps with
  | [] => []
  | s :: rest =>
      match step_usage s with
      | Returned u => u :: returned_usages rest
      | Raised _ => returned_usages rest
      end
  end.

(** ** Records written by the tracker, sample data, predicates *)

(** The record the reset branch writes. *)
Definition reset_record (e : Engine) (d : Z * Z) (source_text : string)
    : Engine :=
  {| pk := pk e; name := name e;
     current_usage := len source_text;
     month_usage_last_reset := fst d;
     year_usage_last_reset := snd d |}.

(** The record the additive branch writes. *)
Definition added_record (e : Engine) (source_text : string) : Engine :=
  {| pk := pk e; name := name e;
     current_usage := current_usage e + len source_text;
     month_usage_last_reset := month_usage_last_reset e;
     year_usage_last_reset := year_usage_last_reset e |}.

(** The example of the spec: last reset (March, 2023), current date April
    2023, a text of 50 characters. *)
Definition march_table : Table :=
  [ {| pk := 1; name := "DeepL"; current_usage := 7;
       month_usage_last_reset := 3; year_usage_last_reset := 2023 |};
    {| pk := 2; name := "Google"; current_usage := 1234;
       month_usage_last_reset := 3; year_usage_last_reset := 2023 |} ].

Definition april_2023 : datetime := {| year := 2023; month := 4 |}.

Definition text_50 : string :=
  "The quick brown fox jumps over the lazy dog again.".

Definition march_2023 : datetime := {| year := 2023; month := 3 |}.

Definition april_call (s : string) : call :=
  {| call_now1 := april_2023; call_now2 := april_2023; call_text := s |}.

Definition march_call (s : string) : call :=
  {| call_now1 := march_2023; call_now2 := march_2023; call_text := s |}.

Definition fresh_table : Table :=
  [ {| pk := 1; name := "Google"; current_usage := 0;
       month_usage_last_reset := 3; year_usage_last_reset := 2023 |} ].

(** A DeepL service whose usage query fails after a good translation. *)
Definition deepl_usage_down : deepl_sdk :=
  {| deepl_Translator := Returned tt;
     deepl_translate_text := fun _ _ _ => Returned {| text := "Hello" |};
     deepl_usage_count :=
       Raised (mk_exc DeepLException "Connection failed") |}.

(** A DeepL adapter whose [DEEPL_AUTH_KEY] is not set: [env.str] raises
    [EnvError], which is no [DeepLException]. *)
Definition deepl_no_key : deepl_sdk :=
  {| deepl_Translator :=
       Raised (mk_exc EnvError "Environment variable DEEPL_AUTH_KEY not set");
     deepl_translate_text := fun _ _ _ => Returned {| text := "Hello" |};
     deepl_usage_count := Returned (PInt 10) |}.

(** A Google service whose credentials file cannot be read. *)
Definition google_no_credentials : google_sdk :=
  {| google_client := Raised (mk_exc OSError "No such file or directory");
     google_project_id := Returned "honyaku";
     google_translate_text := fun _ _ _ _ => Returned ["Hello"] |}.

Definition april_table : Table :=
  [ {| pk := 1; name := "Google"; current_usage := 100;
       month_usage_last_reset := 4; year_usage_last_reset := 2023 |} ].

(** The exception of the first DeepL call that raises, in the order the
    adapters make them. *)
Definition deepl_first_failure (sdk : deepl_sdk)
    (source_text source_lang target_lang : string) : option exc :=
  match deepl_Translator sdk with
  | Raised e => Some e
  | Returned _ =>
      match deepl_translate_text sdk source_text source_lang target_lang with
      | Raised e => Some e
      | Returned _ =>
          match deepl_usage_count sdk with
          | Raised e => Some e
          | Returned _ => None
          end
      end
  end.

(** Whether a DeepL call fails once the translation has been obtained: the
    usage query raises after [translate_text] has returned. *)
Definition deepl_fails_after_translation (sdk : deepl_sdk)
    (source_text source_lang target_lang : string) : bool :=
  match deepl_Translator sdk with
  | Returned _ =>
      match deepl_translate_text sdk source_text source_lang target_lang with
      | Returned _ =>
          match deepl_usage_count sdk with
          | Raised _ => true
          | Returned _ => false
          end
      | Raised _ => false
      end
  | Raised _ => false
  end.

(** What [call_deepl_api] of [utils.py] returns on a failure [ex] of each of
    its three steps. *)
Definition deepl_placeholders (sdk : deepl_sdk)
    (source_text source_lang target_lang : string) (r : pyval * pyval)
    : Prop :=
  (forall ex, deepl_Translator sdk = Raised ex ->
     r = (PStr ("(DeepL authentication error: " ++ str_exc ex ++ ")"),
          PStr "(Unknown)")) /\
  (forall ex, deepl_Translator sdk = Returned tt ->
     deepl_translate_text sdk source_text source_lang target_lang = Raised ex ->
     r = (PStr ("(DeepL translation error: " ++ str_exc ex ++ ")"),
          PStr "(Unknown)")) /\
  (forall ex translation, deepl_Translator sdk = Returned tt ->
     deepl_translate_text sdk source_text source_lang target_lang
       = Returned translation ->
     deepl_usage_count sdk = Raised ex ->
     r = (PTextResult translation,
          PStr ("(DeepL usage error: " ++ str_exc ex ++ ")"))).

(** What [call_deepl_api] of [views.py] returns on a failure [ex] met before
    a translation was obtained: the placeholder of the handler that catches
    [ex], and ["(Error)"] for the usage. *)
Definition views_placeholder (ex : exc) : pyval * pyval :=
  (PStr ((if isinstance_DeepLException ex
          then "(DeepL Error: " else "(Error: ") ++ str_exc ex ++ ")"),
   PStr "(Error)").

(** Whether a request is a valid POST for which a DeepL call fails after
    the translation was obtained. *)
Definition valid_post_late_failure
    (cleaned_data : list (string * string) -> option (string * string))
    (deepl : deepl_sdk) (request : HttpRequest) : bool :=
  String.eqb (method request) "POST" &&
  match cleaned_data (POST request) with
  | Some (direction, source_text) =>
      deepl_fails_after_translation deepl source_text
        (fst (Views.translation_direction direction))
        (snd (Views.translation_direction direction))
  | None => false
  end.

(** The [TypeError] of [result + ...] on a [TextResult]. *)
Definition TextResult_add_error : exc :=
  mk_exc TypeError "unsupported operand type(s) for +: 'TextResult' and 'str'".

(** A DeepL service that refuses the translation: the quota is used up. *)
Definition deepl_quota_exceeded : deepl_sdk :=
  {| deepl_Translator := Returned tt;
     deepl_translate_text := fun _ _ _ =>
       Raised (mk_exc DeepLException
                 "Quota for this billing period has been exceeded");
     deepl_usage_count := Returned (PInt 500000) |}.

(** A form validation that accepts the posted data when both fields are
    there and the text is not empty. *)
Definition lookup_field (k : string) (data : list (string * string))
    : option string :=
  match find (fun kv => String.eqb (fst kv) k) data with
  | Some kv => Some (snd kv)
  | None => None
  end.

Definition sample_cleaned_data (data : list (string * string))
    : option (string * string) :=
  match lookup_field "direction" data, lookup_field "source_text" data with
  | Some d, Some s => if truthy_str s then Some (d, s) else None
  | _, _ => None
  end.

Definition get_request : HttpRequest := {| method := "GET"; POST := [] |}.

Definition post_request : HttpRequest :=
  {| method := "POST";
     POST := [("direction", "Ja>En"); ("source_text", "konnichiwa")] |}.

(** ** Further notions for the statements *)

(** The [(month, year)] a call compares the stored date with. *)
Definition call_date (c : call) : Z * Z :=
  Utils.current_date (call_now1 c) (call_now2 c).

(** Chronological order on [(month, year)] pairs. *)
Definition date_le (a b : Z * Z) : Prop :=
  snd a < snd b \/ (snd a = snd b /\ fst a <= fst b).

(** How many calls of a run were made with date [d] and took the reset
    branch. *)
Fixpoint resets_in (d : Z * Z) (calls : list call) (steps : list step)
    : nat :=
  match calls, steps with
  | c :: cs, s :: ss =>
      ((if date_eqb (call_date c) d && step_reset s then 1 else 0)
       + resets_in d cs ss)%nat
  | _, _ => 0%nat
  end.

Definition index_error : exc := mk_exc IndexError "list index out of range".

Definition deepl_only_table : Table :=
  [ {| pk := 1; name := "DeepL"; current_usage := 7;
       month_usage_last_reset := 3; year_usage_last_reset := 2023 |} ].

Definition december_2023 : datetime := {| year := 2023; month := 12 |}.

Definition january_2024 : datetime := {| year := 2024; month := 1 |}.

Definition december_2024 : datetime := {| year := 2024; month := 12 |}.

Definition deepl_working : deepl_sdk :=
  {| deepl_Translator := Returned tt;
     deepl_translate_text := fun _ _ _ => Returned {| text := "Hello" |};
     deepl_usage_count := Returned (PInt 1500) |}.

Definition google_working : google_sdk :=
  {| google_client := Returned tt;
     google_project_id := Returned "honyaku";
     google_translate_text := fun _ _ _ _ => Returned ["Hello"] |}.

Definition google_no_translations : google_sdk :=
  {| google_client := Returned tt;
     google_project_id := Returned "honyaku";
     google_translate_text := fun _ _ _ _ => Returned [] |}.

Definition invalid_post_request : HttpRequest :=
  {| method := "POST";
     POST := [("direction", "Ja>En"); ("source_text", "")] |}.

(** The outcome of a call, its value seen through [f]. *)
Definition outcome_map {A B : Type} (f : A -> B) (o : outcome A)
    : outcome B :=
  match o with
  | Returned a => Returned (f a)
  | Raised e => Raised e
  end.

(** The texts of the calls of a run made with date [d]. *)
Definition month_texts (d : Z * Z) (calls : list call) : list string :=
  map call_text (filter (fun c => date_eqb (call_date c) d) calls).

(** * Properties *)

(** ** The table: querying after a save *)

Lemma first_row_in (n : string) (t : Table) (e : Engine) :
  first_row (objects_filter n t) = Returned e ->
  In e t /\ name e = n.
Proof.
  unfold objects_filter. intros H.
  destruct (filter (fun r => String.eqb (name r) n) t) as [|r q] eqn:F;
    simpl in H; [discriminate|].
  injection H as ->.
  assert (I : In e (filter (fun r => String.eqb (name r) n) t))
    by (rewrite F; now left).
  apply filter_In in I. destruct I as [I N].
  split; [exact I | now apply String.eqb_eq].
Qed.

Lemma existsb_pk (t : Table) (e e' : Engine) :
  In e t -> pk e' = pk e -> existsb (fun r => pk r =? pk e') t = true.
Proof.
  intros I P. apply existsb_exists. exists e. split; [exact I|].
  rewrite P. apply Z.eqb_refl.
Qed.

(** Overwriting the first row of name [n] by a row of the same key and name
    leaves that row the first of name [n]. *)
Lemma first_row_overwrite (n : string) (e e' : Engine) (t : Table) :
  first_row (objects_filter n t) = Returned e ->
  pk e' = pk e -> name e' = n ->
  first_row (objects_filter n
    (map (fun r => if pk r =? pk e' then e' else r) t)) = Returned e'.
Proof.
  intros H P N. induction t as [|r t IH]; simpl in *; [discriminate|].
  destruct (pk r =? pk e') eqn:K.
  - simpl. rewrite N, String.eqb_refl. reflexivity.
  - simpl. destruct (String.eqb (name r) n) eqn:Q.
    + simpl in H. injection H as ->. rewrite P, Z.eqb_refl in K. discriminate.
    + apply IH. exact H.
Qed.

Lemma save_stored (e e' : Engine) (t : Table) :
  stored t = Returned e ->
  pk e' = pk e -> name e' = name e ->
  exists t', save e' t = (Returned tt, t') /\ stored t' = Returned e'.
Proof.
  intros H P N. unfold stored in *.
  destruct (first_row_in _ _ _ H) as [I G].
  unfold save. rewrite (existsb_pk t e e' I P).
  eexists. split; [reflexivity|].
  apply first_row_overwrite with (e := e); congruence.
Qed.

(** ** The two branches of the tracker *)

Lemma get_google_usage_reset (now1 now2 : datetime) (text : string)
    (t : Table) (e : Engine) :
  stored t = Returned e ->
  date_eqb (Utils.last_reset_date e) (Utils.current_date now1 now2) = false ->
  exists t',
    Utils.get_google_usage now1 now2 text t = (Returned (len text), t') /\
    stored t' =
      Returned (reset_record e (Utils.current_date now1 now2) text).
Proof.
  intros S D.
  destruct (save_stored e
              (reset_record e (Utils.current_date now1 now2) text) t S
              eq_refl eq_refl) as (t' & Sv & St).
  exists t'. split; [|exact St].
  unfold Utils.get_google_usage, bind, objects_filter_0.
  unfold stored in S. rewrite S, D. simpl negb. cbv iota.
  unfold reset_record in Sv. rewrite Sv. reflexivity.
Qed.

Lemma get_google_usage_add (now1 now2 : datetime) (text : string)
    (t : Table) (e : Engine) :
  stored t = Returned e ->
  date_eqb (Utils.last_reset_date e) (Utils.current_date now1 now2) = true ->
  exists t',
    Utils.get_google_usage now1 now2 text t
      = (Returned (current_usage e + len text), t') /\
    stored t' = Returned (added_record e text).
Proof.
  intros S D.
  destruct (save_stored e (added_record e text) t S eq_refl eq_refl)
    as (t' & Sv & St).
  exists t'. split; [|exact St].
  unfold Utils.get_google_usage, bind, objects_filter_0.
  unfold stored in S. rewrite S, D. simpl negb. cbv iota.
  unfold added_record in Sv. rewrite Sv. reflexivity.
Qed.

Lemma date_eqb_eq (a b : Z * Z) : date_eqb a b = true <-> a = b.
Proof.
  destruct a as [a1 a2], b as [b1 b2]. unfold date_eqb. simpl.
  rewrite andb_true_iff, !Z.eqb_eq. split.
  - intros [-> ->]. reflexivity.
  - intros H. injection H as -> ->. split; reflexivity.
Qed.

Lemma date_eqb_neq (a b : Z * Z) : date_eqb a b = false <-> a <> b.
Proof.
  rewrite <- date_eqb_eq. destruct (date_eqb a b); split; intros H;
    try reflexivity; try discriminate; try (intros K; discriminate).
  exfalso. apply H. reflexivity.
Qed.

Lemma len_nonneg (s : string) : 0 <= len s.
Proof. unfold len. lia. Qed.

(** ** Usage tracker: the two branches *)

(** C1. When the stored last-reset (month, year) differs from the current
    calendar (month, year), [get_google_usage] returns the length of the
    submitted text, and the stored record then holds that length as its usage
    and the current month and year as its last reset. *)
Theorem get_google_usage_new_month
    (t : Table) (e : Engine) (now1 now2 : datetime) (m y : Z)
    (source_text : string) :
  stored t = Returned e ->
  month now1 = m -> year now2 = y ->
  (month_usage_last_reset e, year_usage_last_reset e) <> (m, y) ->
  exists t' e',
    Utils.get_google_usage now1 now2 source_text t
      = (Returned (len source_text), t') /\
    stored t' = Returned e' /\
    current_usage e' = len source_text /\
    month_usage_last_reset e' = m /\
    year_usage_last_reset e' = y.
Proof.
  intros S Hm Hy D.
  assert (D' : date_eqb (Utils.last_reset_date e)
                        (Utils.current_date now1 now2) = false).
  { apply date_eqb_neq. unfold Utils.last_reset_date, Utils.current_date.
    rewrite Hm, Hy. exact D. }
  destruct (get_google_usage_reset now1 now2 source_text t e S D')
    as (t' & R & St).
  exists t', (reset_record e (Utils.current_date now1 now2) source_text).
  repeat split; simpl; assumption.
Qed.

Lemma get_google_usage_new_month_witness :
  String.length text_50 = 50%nat /\
  exists t' e',
    Utils.get_google_usage april_2023 april_2023 text_50 march_table
      = (Returned 50, t') /\
    stored t' = Returned e' /\
    current_usage e' = 50 /\
    month_usage_last_reset e' = 4 /\
    year_usage_last_reset e' = 2023.
Proof.
  split; [reflexivity|].
  apply (get_google_usage_new_month march_table
           {| pk := 2; name := "Google"; current_usage := 1234;
              month_usage_last_reset := 3; year_usage_last_reset := 2023 |}
           april_2023 april_2023 4 2023 text_50).
  - reflexivity.
  - reflexivity.
  - reflexivity.
  - simpl. intros H. discriminate H.
Defined.

(** C2. When the stored last-reset (month, year) equals the current calendar
    (month, year), [get_google_usage] adds exactly the length of the submitted
    text to the stored usage, leaves the last reset as it is, and returns the
    new total, which is the usage stored after the call. *)
Theorem get_google_usage_same_month
    (t : Table) (e : Engine) (now1 now2 : datetime) (source_text : string) :
  stored t = Returned e ->
  (month_usage_last_reset e, year_usage_last_reset e)
    = (month now1, year now2) ->
  exists t' e',
    Utils.get_google_usage now1 now2 source_text t
      = (Returned (current_usage e'), t') /\
    stored t' = Returned e' /\
    current_usage e' = current_usage e + len source_text /\
    month_usage_last_reset e' = month_usage_last_reset e /\
    year_usage_last_reset e' = year_usage_last_reset e.
Proof.
  intros S D.
  assert (D' : date_eqb (Utils.last_reset_date e)
                        (Utils.current_date now1 now2) = true).
  { apply date_eqb_eq. exact D. }
  destruct (get_google_usage_add now1 now2 source_text t e S D')
    as (t' & R & St).
  exists t', (added_record e source_text).
  repeat split; simpl; assumption.
Qed.

Lemma get_google_usage_same_month_witness :
  exists t' e',
    Utils.get_google_usage march_2023 march_2023 "hello" march_table
      = (Returned (current_usage e'), t') /\
    stored t' = Returned e' /\
    current_usage e' = 1234 + len "hello" /\
    month_usage_last_reset e' = 3 /\
    year_usage_last_reset e' = 2023.
Proof.
  apply (get_google_usage_same_month march_table
           {| pk := 2; name := "Google"; current_usage := 1234;
              month_usage_last_reset := 3; year_usage_last_reset := 2023 |}
           march_2023 march_2023 "hello").
  - reflexivity.
  - reflexivity.
Defined.

(** ** Direction resolver *)

(** C3. The label of Japanese-to-English translation resolves to
    [("ja", "en-us")], in [utils.py] and in [views.py] alike. *)
Theorem translation_direction_ja_en :
  Utils.translation_direction "Ja>En" = ("ja", "en-us") /\
  Views.translation_direction "Ja>En" = ("ja", "en-us").
Proof. split; reflexivity. Qed.

(** C4. Every other label resolves to [("en", "ja")]; the resolver is a
    total function, so no label makes it raise. *)
Theorem translation_direction_default (direction : string) :
  direction <> "Ja>En" ->
  Utils.translation_direction direction = ("en", "ja") /\
  Views.translation_direction direction = ("en", "ja").
Proof.
  intros H. apply String.eqb_neq in H.
  unfold Utils.translation_direction, Views.translation_direction.
  rewrite H. split; reflexivity.
Qed.

Lemma translation_direction_default_witness :
  Utils.translation_direction "En>Ja" = ("en", "ja") /\
  Views.translation_direction "En>Ja" = ("en", "ja").
Proof.
  apply (translation_direction_default "En>Ja").
  intros H. discriminate H.
Defined.

(** ** Usage tracker: runs *)

(** One call on a table that holds a Google record: it returns, and the
    record stored afterwards is the one its branch writes. *)
Lemma get_google_usage_step (now1 now2 : datetime) (text : string)
    (t : Table) (e : Engine) :
  stored t = Returned e ->
  exists t',
    Utils.get_google_usage now1 now2 text t
      = (Returned (current_usage
                     (if reset_due now1 now2 t
                      then reset_record e (Utils.current_date now1 now2) text
                      else added_record e text)), t') /\
    stored t' = Returned (if reset_due now1 now2 t
                          then reset_record e (Utils.current_date now1 now2) text
                          else added_record e text).
Proof.
  intros S. unfold reset_due. rewrite S.
  destruct (date_eqb (Utils.last_reset_date e) (Utils.current_date now1 now2))
    eqn:D; simpl negb; cbv iota.
  - apply get_google_usage_add; assumption.
  - apply get_google_usage_reset; assumption.
Qed.

Lemma run_cons (c : call) (cs : list call) (t : Table) :
  run (c :: cs) t =
    (mk_step (reset_due (call_now1 c) (call_now2 c) t) (call_text c)
       (fst (Utils.get_google_usage (call_now1 c) (call_now2 c)
               (call_text c) t))
       :: fst (run cs (snd (Utils.get_google_usage (call_now1 c)
                              (call_now2 c) (call_text c) t))),
     snd (run cs (snd (Utils.get_google_usage (call_now1 c) (call_now2 c)
                         (call_text c) t)))).
Proof.
  simpl.
  destruct (Utils.get_google_usage (call_now1 c) (call_now2 c)
              (call_text c) t) as [r t'].
  simpl. destruct (run cs t') as [steps t'']. reflexivity.
Qed.

Lemma total_len_nonneg (texts : list string) : 0 <= total_len texts.
Proof.
  induction texts as [|s texts IH]; simpl; [lia|].
  pose proof (len_nonneg s). lia.
Qed.

Lemma total_len_app (a b : list string) :
  total_len (a ++ b) = total_len a + total_len b.
Proof.
  induction a as [|s a IH]; simpl; [reflexivity|]. rewrite IH. lia.
Qed.

(** C6. On a table whose Google record holds the total length of the texts
    submitted since its last reset, any sequence of tracker calls leaves a
    Google record whose usage is non-negative and is the total length of the
    texts submitted since the last recorded reset. *)
Theorem usage_is_sum_since_last_reset
    (calls : list call) (t : Table) (e : Engine) (prior : list string) :
  stored t = Returned e ->
  current_usage e = total_len prior ->
  exists e',
    stored (snd (run calls t)) = Returned e' /\
    0 <= current_usage e' /\
    current_usage e' = total_len (since_last_reset prior (fst (run calls t))).
Proof.
  revert t e prior.
  induction calls as [|c cs IH]; intros t e prior S U.
  - exists e. simpl. repeat split; try assumption.
    rewrite U. apply total_len_nonneg.
  - rewrite run_cons.
    destruct (get_google_usage_step (call_now1 c) (call_now2 c)
                (call_text c) t e S) as (t' & R & St).
    rewrite R. simpl fst. simpl snd. simpl since_last_reset.
    destruct (reset_due (call_now1 c) (call_now2 c) t).
    + apply (IH t' _ [call_text c] St). simpl. lia.
    + apply (IH t' _ (prior ++ [call_text c])%list St).
      rewrite total_len_app. simpl. lia.
Qed.

Lemma usage_is_sum_since_last_reset_witness :
  exists e',
    stored (snd (run [march_call "abc"; april_call "hello"; april_call "ab"]
                   fresh_table)) = Returned e' /\
    0 <= current_usage e' /\
    current_usage e' =
      total_len (since_last_reset []
        (fst (run [march_call "abc"; april_call "hello"; april_call "ab"]
                fresh_table))).
Proof.
  apply (usage_is_sum_since_last_reset
           [march_call "abc"; april_call "hello"; april_call "ab"]
           fresh_table
           {| pk := 1; name := "Google"; current_usage := 0;
              month_usage_last_reset := 3; year_usage_last_reset := 2023 |}
           []).
  - reflexivity.
  - reflexivity.
Defined.

(** Within one month, on a record already reset for it: every call takes the
    additive branch and the returned totals never decrease. *)
Lemma run_within_month (m y : Z) (cs : list call) :
  forall (t : Table) (e : Engine),
    stored t = Returned e ->
    Utils.last_reset_date e = (m, y) ->
    Forall (in_month m y) cs ->
    Forall (fun s => step_reset s = false) (fst (run cs t)) /\
    Sorted Z.le (current_usage e :: returned_usages (fst (run cs t))) /\
    length (returned_usages (fst (run cs t))) = length cs.
Proof.
  induction cs as [|c cs IH]; intros t e S L F.
  - simpl. repeat split; constructor; constructor.
  - inversion F as [|c0 cs0 Hc Hcs]; subst.
    destruct Hc as (M1 & Y1 & M2 & Y2).
    assert (Rd : reset_due (call_now1 c) (call_now2 c) t = false).
    { unfold reset_due. rewrite S, L. unfold Utils.current_date.
      rewrite M1, Y2. unfold date_eqb. simpl. rewrite !Z.eqb_refl.
      reflexivity. }
    rewrite run_cons.
    destruct (get_google_usage_step (call_now1 c) (call_now2 c)
                (call_text c) t e S) as (t' & R & St).
    rewrite Rd in R, St. rewrite R. simpl fst. simpl snd.
    destruct (IH t' (added_record e (call_text c)) St L Hcs)
      as (A & B & C).
    split; [|split].
    + constructor; [exact Rd | exact A].
    + simpl returned_usages.
      constructor; [exact B|]. constructor. simpl.
      pose proof (len_nonneg (call_text c)). lia.
    + simpl. rewrite C. reflexivity.
Qed.

(** C7. For calls made one after the other within one calendar month: every
    call returns, only the first of them can take the reset branch (so the
    reset branch is taken at most once), every later call takes the additive
    branch, and the returned totals never decrease. *)
Theorem reset_at_most_once_per_month
    (m y : Z) (c : call) (cs : list call) (t : Table) (e : Engine) :
  stored t = Returned e ->
  in_month m y c ->
  Forall (in_month m y) cs ->
  Forall (fun s => step_reset s = false) (tl (fst (run (c :: cs) t))) /\
  (length (filter step_reset (fst (run (c :: cs) t))) <= 1)%nat /\
  Sorted Z.le (returned_usages (fst (run (c :: cs) t))) /\
  length (returned_usages (fst (run (c :: cs) t))) = length (c :: cs).
Proof.
  intros S Hc Hcs.
  rewrite run_cons.
  destruct (get_google_usage_step (call_now1 c) (call_now2 c)
              (call_text c) t e S) as (t' & R & St).
  rewrite R. simpl fst. simpl snd. simpl tl.
  set (e1 := if reset_due (call_now1 c) (call_now2 c) t
             then reset_record e
                    (Utils.current_date (call_now1 c) (call_now2 c))
                    (call_text c)
             else added_record e (call_text c)) in *.
  assert (L : Utils.last_reset_date e1 = (m, y)).
  { destruct Hc as (M1 & Y1 & M2 & Y2). subst e1.
    unfold reset_due. rewrite S.
    destruct (date_eqb (Utils.last_reset_date e)
                (Utils.current_date (call_now1 c) (call_now2 c))) eqn:D;
      simpl negb; cbv iota.
    - apply date_eqb_eq in D. unfold Utils.last_reset_date in *. simpl.
      rewrite D. unfold Utils.current_date. rewrite M1, Y2. reflexivity.
    - unfold Utils.last_reset_date, Utils.current_date. simpl.
      rewrite M1, Y2. reflexivity. }
  destruct (run_within_month m y cs t' e1 St L Hcs) as (A & B & C).
  split; [exact A|]. split; [|split].
  - simpl filter.
    assert (Z0 : filter step_reset (fst (run cs t')) = []).
    { clear -A. induction A as [|s l Hs A IH]; simpl; [reflexivity|].
      rewrite Hs. exact IH. }
    clearbody e1. simpl step_reset. rewrite Z0.
    destruct (reset_due (call_now1 c) (call_now2 c) t); simpl; lia.
  - simpl returned_usages. exact B.
  - simpl returned_usages. simpl length. rewrite C. reflexivity.
Qed.

Lemma reset_at_most_once_per_month_witness :
  Forall (fun s => step_reset s = false)
    (tl (fst (run [april_call "abc"; april_call "hello"; april_call "ab"]
                march_table))) /\
  (length (filter step_reset
     (fst (run [april_call "abc"; april_call "hello"; april_call "ab"]
             march_table))) <= 1)%nat /\
  Sorted Z.le
    (returned_usages
       (fst (run [april_call "abc"; april_call "hello"; april_call "ab"]
               march_table))) /\
  length (returned_usages
    (fst (run [april_call "abc"; april_call "hello"; april_call "ab"]
            march_table))) = 3%nat.
Proof.
  apply (reset_at_most_once_per_month 4 2023
           (april_call "abc") [april_call "hello"; april_call "ab"]
           march_table
           {| pk := 2; name := "Google"; current_usage := 1234;
              month_usage_last_reset := 3; year_usage_last_reset := 2023 |}).
  - reflexivity.
  - repeat split.
  - repeat constructor.
Defined.

(** ** Provider adapters *)

(** C5. The Google adapter of [utils.py] calls the tracker after its
    [try]/[except], whatever the outcome of the translation: on a request
    whose translation fails (here the credentials file is missing), the error
    placeholder is returned and the stored usage still grows by the length of
    the text, from 100 to 105. *)
Theorem google_failure_is_counted :
  Utils.google_try_block google_no_credentials "hello" "en" "ja"
    = Raised (mk_exc OSError "No such file or directory") /\
  stored april_table
    = Returned {| pk := 1; name := "Google"; current_usage := 100;
                  month_usage_last_reset := 4;
                  year_usage_last_reset := 2023 |} /\
  fst (Utils.call_google_api_v3 google_no_credentials april_2023 april_2023
         "hello" "en" "ja" april_table)
    = Returned ("(Error: No such file or directory)", 105) /\
  stored (snd (Utils.call_google_api_v3 google_no_credentials
                 april_2023 april_2023 "hello" "en" "ja" april_table))
    = Returned {| pk := 1; name := "Google"; current_usage := 105;
                  month_usage_last_reset := 4;
                  year_usage_last_reset := 2023 |}.
Proof. repeat split. Qed.

(** The same for every failing request: the table the adapter leaves is the
    one the tracker leaves. *)
Lemma call_google_api_v3_table (sdk : google_sdk) (now1 now2 : datetime)
    (source_text source_lang target_lang : string) (t : Table) :
  snd (Utils.call_google_api_v3 sdk now1 now2 source_text
         source_lang target_lang t)
    = snd (Utils.get_google_usage now1 now2 source_text t).
Proof.
  unfold Utils.call_google_api_v3, bind.
  destruct (Utils.get_google_usage now1 now2 source_text t) as [[u|ex] t'];
    reflexivity.
Qed.

(** C10. In [utils.py], when the translation succeeds and the usage query
    then raises a [DeepLException], [call_deepl_api] returns the translation
    as it was obtained, paired with an error placeholder in the usage slot. *)
Theorem call_deepl_api_usage_failure
    (sdk : deepl_sdk) (source_text source_lang target_lang : string)
    (translation : TextResult) (ex : exc) :
  deepl_Translator sdk = Returned tt ->
  deepl_translate_text sdk source_text source_lang target_lang
    = Returned translation ->
  deepl_usage_count sdk = Raised ex ->
  isinstance_DeepLException ex = true ->
  Utils.call_deepl_api sdk source_text source_lang target_lang
    = Returned (PTextResult translation,
                PStr ("(DeepL usage error: " ++ str_exc ex ++ ")")).
Proof.
  intros A T U D. unfold Utils.call_deepl_api. rewrite A, T, U, D.
  reflexivity.
Qed.

Lemma call_deepl_api_usage_failure_witness :
  Utils.call_deepl_api deepl_usage_down "konnichiwa" "ja" "en-us"
    = Returned (PTextResult {| text := "Hello" |},
                PStr "(DeepL usage error: Connection failed)").
Proof.
  apply (call_deepl_api_usage_failure deepl_usage_down
           "konnichiwa" "ja" "en-us" {| text := "Hello" |}
           (mk_exc DeepLException "Connection failed"));
    reflexivity.
Defined.

(** C8, as stated, fails: [call_deepl_api] of [utils.py] catches
    [DeepLException] only, so that the [EnvError] of a missing
    [DEEPL_AUTH_KEY] leaves the adapter; and on a failure of the usage query
    the result it returns is the translation, not a placeholder. *)
Lemma call_deepl_api_not_all_caught :
  Utils.call_deepl_api deepl_no_key "hello" "en" "ja"
    = Raised (mk_exc EnvError "Environment variable DEEPL_AUTH_KEY not set") /\
  Utils.call_deepl_api deepl_usage_down "konnichiwa" "ja" "en-us"
    = Returned (PTextResult {| text := "Hello" |},
                PStr "(DeepL usage error: Connection failed)") /\
  ~ (forall (sdk : deepl_sdk) (source_text source_lang target_lang : string),
       exists r,
         Utils.call_deepl_api sdk source_text source_lang target_lang
           = Returned r).
Proof.
  split; [reflexivity|]. split; [reflexivity|].
  intros H. destruct (H deepl_no_key "hello" "en" "ja") as [r Hr].
  discriminate Hr.
Qed.

(** [call_deepl_api] of [views.py], case by case: a failure met before a
    translation was obtained is turned into the placeholder of its handler. *)
Lemma views_call_deepl_api_early_failure (sdk : deepl_sdk)
    (source_text source_lang target_lang : string) (ex : exc) :
  deepl_first_failure sdk source_text source_lang target_lang = Some ex ->
  deepl_fails_after_translation sdk source_text source_lang target_lang
    = false ->
  Views.call_deepl_api sdk source_text source_lang target_lang
    = Returned (views_placeholder ex).
Proof.
  unfold deepl_first_failure, deepl_fails_after_translation,
    Views.call_deepl_api, Views.deepl_try_block, views_placeholder.
  destruct (deepl_Translator sdk) as [u|e1].
  - destruct (deepl_translate_text sdk source_text source_lang target_lang)
      as [tr|e2].
    + destruct (deepl_usage_count sdk) as [c|e3]; discriminate.
    + intros F _. injection F as ->.
      destruct (isinstance_DeepLException ex); reflexivity.
  - intros F _. injection F as ->.
    destruct (isinstance_DeepLException ex); reflexivity.
Qed.

(** A failure met after the translation was obtained makes the handler add
    a [str] to the [TextResult]: the [TypeError] leaves the function. *)
Lemma views_call_deepl_api_late_failure (sdk : deepl_sdk)
    (source_text source_lang target_lang : string) :
  deepl_fails_after_translation sdk source_text source_lang target_lang
    = true ->
  Views.call_deepl_api sdk source_text source_lang target_lang
    = Raised TextResult_add_error.
Proof.
  unfold deepl_fails_after_translation, Views.call_deepl_api,
    Views.deepl_try_block.
  destruct (deepl_Translator sdk) as [u|e1]; [|discriminate].
  destruct (deepl_translate_text sdk source_text source_lang target_lang)
    as [tr|e2]; [|discriminate].
  destruct (deepl_usage_count sdk) as [c|e3]; [discriminate|].
  intros _. destruct (isinstance_DeepLException e3); reflexivity.
Qed.

Lemma views_call_deepl_api_no_failure (sdk : deepl_sdk)
    (source_text source_lang target_lang : string) :
  deepl_first_failure sdk source_text source_lang target_lang = None ->
  exists translation usage,
    deepl_translate_text sdk source_text source_lang target_lang
      = Returned translation /\
    deepl_usage_count sdk = Returned usage /\
    Views.call_deepl_api sdk source_text source_lang target_lang
      = Returned (PTextResult translation, usage).
Proof.
  unfold deepl_first_failure, Views.call_deepl_api, Views.deepl_try_block.
  destruct (deepl_Translator sdk) as [u|e1]; [|discriminate].
  destruct (deepl_translate_text sdk source_text source_lang target_lang)
    as [tr|e2]; [|discriminate].
  destruct (deepl_usage_count sdk) as [c|e3]; [|discriminate].
  intros _. exists tr, c. repeat split.
Qed.

Lemma views_call_google_api_v3_returns (sdk : google_sdk)
    (source_text source_lang target_lang : string) :
  exists r,
    Views.call_google_api_v3 sdk source_text source_lang target_lang
      = Returned r.
Proof.
  unfold Views.call_google_api_v3.
  destruct (Utils.google_try_block sdk source_text source_lang target_lang);
    eexists; reflexivity.
Qed.

(** C8, amended. [call_deepl_api] of [utils.py] returns whenever the first
    DeepL call to fail raises a [DeepLException], with a placeholder in place
    of the translation for a failed authentication or translation and in
    place of the usage, the translation being kept, for a failed usage
    query. [call_deepl_api] of [views.py] turns every exception met before a
    translation was obtained into a placeholder in place of the translation.
    Every exception raised in the [try] block of [call_google_api_v3] is
    turned into a placeholder in place of the translation, and the adapter
    returns. *)
Theorem adapters_catch_provider_failures
    (deepl : deepl_sdk) (google : google_sdk) (now1 now2 : datetime)
    (source_text source_lang target_lang : string)
    (t : Table) (e : Engine) :
  stored t = Returned e ->
  ((forall ex,
      deepl_first_failure deepl source_text source_lang target_lang = Some ex ->
      isinstance_DeepLException ex = true) ->
   exists r,
     Utils.call_deepl_api deepl source_text source_lang target_lang
       = Returned r /\
     deepl_placeholders deepl source_text source_lang target_lang r) /\
  (forall ex,
     deepl_first_failure deepl source_text source_lang target_lang = Some ex ->
     deepl_fails_after_translation deepl source_text source_lang target_lang
       = false ->
     Views.call_deepl_api deepl source_text source_lang target_lang
       = Returned (views_placeholder ex)) /\
  (exists result usage t',
     Utils.call_google_api_v3 google now1 now2 source_text
       source_lang target_lang t = (Returned (result, usage), t') /\
     Views.call_google_api_v3 google source_text source_lang target_lang
       = Returned result /\
     forall ex,
       Utils.google_try_block google source_text source_lang target_lang
         = Raised ex ->
       result = "(Error: " ++ str_exc ex ++ ")").
Proof.
  intros S. split; [|split].
  - unfold deepl_first_failure, Utils.call_deepl_api, deepl_placeholders.
    destruct (deepl_Translator deepl) as [[]|ex1] eqn:A.
    + destruct (deepl_translate_text deepl source_text source_lang target_lang)
        as [tr|ex2] eqn:T.
      * destruct (deepl_usage_count deepl) as [u|ex3] eqn:U; intros D.
        -- eexists. split; [reflexivity|].
           repeat split; intros; discriminate.
        -- rewrite (D ex3 eq_refl).
           eexists. split; [reflexivity|].
           repeat split; intros; try discriminate. congruence.
      * intros D. rewrite (D ex2 eq_refl).
        eexists. split; [reflexivity|].
        repeat split; intros; try discriminate. congruence.
    + intros D. rewrite (D ex1 eq_refl).
      eexists. split; [reflexivity|].
      repeat split; intros; try discriminate. congruence.
  - intros ex F L. apply views_call_deepl_api_early_failure; assumption.
  - destruct (get_google_usage_step now1 now2 source_text t e S)
      as (t' & R & St).
    unfold Utils.call_google_api_v3, bind. rewrite R.
    do 3 eexists. split; [reflexivity|]. split.
    + unfold Views.call_google_api_v3, Utils.google_result.
      destruct (Utils.google_try_block google source_text
                  source_lang target_lang); reflexivity.
    + intros ex G. unfold Utils.google_result. rewrite G. reflexivity.
Qed.

Lemma adapters_catch_provider_failures_witness :
  (exists r,
     Utils.call_deepl_api deepl_quota_exceeded "konnichiwa" "ja" "en-us"
       = Returned r /\
     deepl_placeholders deepl_quota_exceeded "konnichiwa" "ja" "en-us" r) /\
  Views.call_deepl_api deepl_quota_exceeded "konnichiwa" "ja" "en-us"
    = Returned
        (PStr "(DeepL Error: Quota for this billing period has been exceeded)",
         PStr "(Error)") /\
  (exists result usage t',
     Utils.call_google_api_v3 google_no_credentials april_2023 april_2023
       "konnichiwa" "ja" "en-us" april_table
       = (Returned (result, usage), t') /\
     Views.call_google_api_v3 google_no_credentials "konnichiwa" "ja" "en-us"
       = Returned result /\
     forall ex,
       Utils.google_try_block google_no_credentials "konnichiwa" "ja" "en-us"
         = Raised ex ->
       result = "(Error: " ++ str_exc ex ++ ")").
Proof.
  destruct (adapters_catch_provider_failures deepl_quota_exceeded
              google_no_credentials april_2023 april_2023
              "konnichiwa" "ja" "en-us" april_table
              {| pk := 1; name := "Google"; current_usage := 100;
                 month_usage_last_reset := 4; year_usage_last_reset := 2023 |}
              eq_refl) as (U & V & G).
  split; [|split].
  - apply U. intros ex H. injection H as <-. reflexivity.
  - apply (V (mk_exc DeepLException
                "Quota for this billing period has been exceeded"));
      reflexivity.
  - exact G.
Defined.

(** ** The form page *)

(** C9. A POST request whose form is valid does not always get a response:
    when the DeepL translation is obtained and the usage query then raises,
    the handler of [call_deepl_api] in [views.py] adds a [str] to the
    [TextResult], and the [TypeError] leaves the adapter and
    [homepage_view], so that no response of status 200 is returned. *)
Theorem homepage_view_valid_post_raises
    (cleaned_data : list (string * string) -> option (string * string))
    (deepl : deepl_sdk) (google : google_sdk) (request : HttpRequest)
    (direction source_text : string) :
  method request = "POST" ->
  cleaned_data (POST request) = Some (direction, source_text) ->
  deepl_fails_after_translation deepl source_text
    (fst (Views.translation_direction direction))
    (snd (Views.translation_direction direction)) = true ->
  Views.homepage_view cleaned_data deepl google request
    = Raised TextResult_add_error.
Proof.
  intros P V L. unfold Views.homepage_view. rewrite P, V. simpl String.eqb.
  cbv iota.
  destruct (Views.translation_direction direction)
    as [source_lang target_lang]. simpl fst in L. simpl snd in L.
  rewrite (views_call_deepl_api_late_failure deepl source_text
             source_lang target_lang L).
  reflexivity.
Qed.

Lemma homepage_view_valid_post_raises_witness :
  sample_cleaned_data (POST post_request) = Some ("Ja>En", "konnichiwa") /\
  Views.homepage_view sample_cleaned_data deepl_usage_down google_working
    post_request
    = Raised (mk_exc TypeError
                "unsupported operand type(s) for +: 'TextResult' and 'str'").
Proof.
  split; [reflexivity|].
  apply (homepage_view_valid_post_raises sample_cleaned_data
           deepl_usage_down google_working post_request
           "Ja>En" "konnichiwa"); reflexivity.
Defined.

(** * Further properties of the code *)

(** ** The tracker and the table *)

(** The table one call leaves: the row of the record's key overwritten by the
    record its branch writes. *)
Lemma get_google_usage_eq (now1 now2 : datetime) (text : string)
    (t : Table) (e : Engine) :
  stored t = Returned e ->
  Utils.get_google_usage now1 now2 text t =
    (Returned (current_usage
                 (if reset_due now1 now2 t
                  then reset_record e (Utils.current_date now1 now2) text
                  else added_record e text)),
     map (fun r =>
            if pk r =? pk e
            then (if reset_due now1 now2 t
                  then reset_record e (Utils.current_date now1 now2) text
                  else added_record e text)
            else r) t).
Proof.
  intros S. unfold reset_due. rewrite S.
  destruct (first_row_in _ _ _ S) as [I _].
  unfold Utils.get_google_usage, bind, objects_filter_0, save.
  unfold stored in S. rewrite S.
  destruct (date_eqb (Utils.last_reset_date e) (Utils.current_date now1 now2));
    simpl negb; cbv iota; cbn [pk];
    rewrite (existsb_pk t e e I eq_refl); reflexivity.
Qed.

Lemma first_row_split (n : string) (t : Table) (e : Engine) :
  first_row (objects_filter n t) = Returned e ->
  exists l1 l2, t = (l1 ++ e :: l2)%list /\ objects_filter n l1 = [].
Proof.
  induction t as [|r t IH]; simpl; [discriminate|].
  destruct (String.eqb (name r) n) eqn:Q; simpl.
  - intros H. injection H as ->. exists [], t. split; reflexivity.
  - intros H. destruct (IH H) as (l1 & l2 & -> & F).
    exists (r :: l1), l2. split; [reflexivity|].
    simpl. rewrite Q. exact F.
Qed.

Lemma overwrite_unique_key (l1 l2 : list Engine) (e e' : Engine) :
  NoDup (map pk (l1 ++ e :: l2)%list) ->
  map (fun r => if pk r =? pk e then e' else r) (l1 ++ e :: l2)%list
    = (l1 ++ e' :: l2)%list.
Proof.
  intros N. rewrite map_app in N. simpl in N.
  apply NoDup_remove_2 in N.
  assert (K : forall l, (forall r, In r l -> pk r <> pk e) ->
            map (fun r => if pk r =? pk e then e' else r) l = l).
  { intros l H. induction l as [|r l IH]; simpl; [reflexivity|].
    rewrite IH by (intros r' Hr'; apply H; now right).
    destruct (pk r =? pk e) eqn:Q; [|reflexivity].
    apply Z.eqb_eq in Q. exfalso. apply (H r); [now left | exact Q]. }
  rewrite map_app. simpl. rewrite Z.eqb_refl.
  rewrite !K; [reflexivity| |].
  - intros r Hr Q. apply N. apply in_or_app. right.
    rewrite <- Q. now apply in_map.
  - intros r Hr Q. apply N. apply in_or_app. left.
    rewrite <- Q. now apply in_map.
Qed.

(** X1. Without a record named Google, [get_google_usage] raises the
    [IndexError] of [[0]] and writes nothing; [call_google_api_v3] of
    [utils.py], whose [try] block does not cover the tracker, lets it
    through whatever the translation gave. *)
Theorem no_google_record_raises
    (sdk : google_sdk) (now1 now2 : datetime)
    (source_text source_lang target_lang : string) (t : Table) :
  objects_filter "Google" t = [] ->
  Utils.get_google_usage now1 now2 source_text t = (Raised index_error, t) /\
  Utils.call_google_api_v3 sdk now1 now2 source_text source_lang target_lang t
    = (Raised index_error, t).
Proof.
  intros H.
  assert (G : Utils.get_google_usage now1 now2 source_text t
                = (Raised index_error, t)).
  { unfold Utils.get_google_usage, bind, objects_filter_0. rewrite H.
    reflexivity. }
  split; [exact G|].
  unfold Utils.call_google_api_v3, bind. rewrite G. reflexivity.
Qed.

Lemma no_google_record_raises_witness :
  Utils.get_google_usage april_2023 april_2023 "hello" deepl_only_table
    = (Raised index_error, deepl_only_table) /\
  Utils.call_google_api_v3 google_working april_2023 april_2023
    "hello" "en" "ja" deepl_only_table
    = (Raised index_error, deepl_only_table).
Proof.
  apply (no_google_record_raises google_working april_2023 april_2023
           "hello" "en" "ja" deepl_only_table).
  reflexivity.
Defined.

(** X2. With distinct primary keys, a call of the tracker rewrites the first
    record named Google in place and nothing else: the rows before and after
    it are as they were, no row is added or removed, and the record keeps its
    key and its name. *)
Theorem get_google_usage_frame
    (now1 now2 : datetime) (source_text : string) (t : Table) (e : Engine) :
  stored t = Returned e ->
  NoDup (map pk t) ->
  exists l1 l2 e',
    t = (l1 ++ e :: l2)%list /\
    objects_filter "Google" l1 = [] /\
    snd (Utils.get_google_usage now1 now2 source_text t)
      = (l1 ++ e' :: l2)%list /\
    pk e' = pk e /\ name e' = name e.
Proof.
  intros S N.
  destruct (first_row_split _ _ _ S) as (l1 & l2 & E & F).
  rewrite (get_google_usage_eq now1 now2 source_text t e S). simpl snd.
  assert (K : pk (if reset_due now1 now2 t
                  then reset_record e (Utils.current_date now1 now2)
                         source_text
                  else added_record e source_text) = pk e /\
              name (if reset_due now1 now2 t
                    then reset_record e (Utils.current_date now1 now2)
                           source_text
                    else added_record e source_text) = name e)
    by (destruct (reset_due now1 now2 t); split; reflexivity).
  revert K.
  generalize (if reset_due now1 now2 t
              then reset_record e (Utils.current_date now1 now2) source_text
              else added_record e source_text).
  intros e1 K. exists l1, l2, e1.
  split; [exact E|]. split; [exact F|]. split; [|exact K].
  clear S. subst t. apply overwrite_unique_key. exact N.
Qed.

Lemma get_google_usage_frame_witness :
  exists l1 l2 e',
    march_table =
      (l1 ++ {| pk := 2; name := "Google"; current_usage := 1234;
                month_usage_last_reset := 3;
                year_usage_last_reset := 2023 |} :: l2)%list /\
    objects_filter "Google" l1 = [] /\
    snd (Utils.get_google_usage april_2023 april_2023 "hello" march_table)
      = (l1 ++ e' :: l2)%list /\
    pk e' = 2 /\ name e' = "Google".
Proof.
  apply (get_google_usage_frame april_2023 april_2023 "hello" march_table
           {| pk := 2; name := "Google"; current_usage := 1234;
              month_usage_last_reset := 3; year_usage_last_reset := 2023 |}).
  - reflexivity.
  - simpl. repeat constructor; simpl; intuition discriminate.
Defined.

(** X3. An empty text submitted in the month of the last reset changes
    nothing: the stored usage is returned and the table is left as it was
    (primary keys being distinct). *)
Theorem get_google_usage_empty_text
    (now1 now2 : datetime) (t : Table) (e : Engine) :
  stored t = Returned e ->
  NoDup (map pk t) ->
  (month_usage_last_reset e, year_usage_last_reset e)
    = (month now1, year now2) ->
  Utils.get_google_usage now1 now2 "" t = (Returned (current_usage e), t).
Proof.
  intros S N D.
  assert (Rd : reset_due now1 now2 t = false).
  { unfold reset_due. rewrite S.
    replace (date_eqb (Utils.last_reset_date e)
               (Utils.current_date now1 now2)) with true; [reflexivity|].
    symmetry. apply date_eqb_eq. exact D. }
  rewrite (get_google_usage_eq now1 now2 "" t e S). rewrite Rd.
  assert (A : added_record e "" = e).
  { destruct e as [k n u m y]. unfold added_record, len. simpl.
    f_equal. lia. }
  rewrite A.
  destruct (first_row_split _ _ _ S) as (l1 & l2 & E & _).
  clear S Rd. subst t. rewrite overwrite_unique_key by exact N.
  reflexivity.
Qed.

Lemma get_google_usage_empty_text_witness :
  Utils.get_google_usage march_2023 march_2023 "" march_table
    = (Returned 1234, march_table).
Proof.
  apply (get_google_usage_empty_text march_2023 march_2023 march_table
           {| pk := 2; name := "Google"; current_usage := 1234;
              month_usage_last_reset := 3; year_usage_last_reset := 2023 |}).
  - reflexivity.
  - simpl. repeat constructor; simpl; intuition discriminate.
  - reflexivity.
Defined.

(** After a call the stored date is the date the call built. *)
Lemma get_google_usage_dated (now1 now2 : datetime) (text : string)
    (t : Table) (e : Engine) :
  stored t = Returned e ->
  exists t' e',
    Utils.get_google_usage now1 now2 text t
      = (Returned (current_usage e'), t') /\
    stored t' = Returned e' /\
    Utils.last_reset_date e' = Utils.current_date now1 now2.
Proof.
  intros S.
  destruct (get_google_usage_step now1 now2 text t e S) as (t' & R & St).
  exists t'. eexists. split; [exact R|]. split; [exact St|].
  unfold reset_due. rewrite S.
  destruct (date_eqb (Utils.last_reset_date e) (Utils.current_date now1 now2))
    eqn:D; simpl negb; cbv iota.
  - apply date_eqb_eq in D. exact D.
  - reflexivity.
Qed.

(** X4. After any call of the tracker on a table holding a Google record,
    the stored date is the [(month, year)] the call built from the clock,
    the value returned is the usage stored, and it is at least the length of
    the text when the usage stored before was not negative. *)
Theorem get_google_usage_postcondition
    (now1 now2 : datetime) (source_text : string) (t : Table) (e : Engine) :
  stored t = Returned e ->
  exists t' e',
    Utils.get_google_usage now1 now2 source_text t
      = (Returned (current_usage e'), t') /\
    stored t' = Returned e' /\
    Utils.last_reset_date e' = Utils.current_date now1 now2 /\
    (0 <= current_usage e -> len source_text <= current_usage e').
Proof.
  intros S.
  destruct (get_google_usage_step now1 now2 source_text t e S)
    as (t' & R & St).
  exists t'. eexists. split; [exact R|]. split; [exact St|].
  unfold reset_due. rewrite S.
  destruct (date_eqb (Utils.last_reset_date e) (Utils.current_date now1 now2))
    eqn:D; simpl negb; cbv iota.
  - apply date_eqb_eq in D. split; [exact D|]. simpl. lia.
  - split; [reflexivity|]. simpl. lia.
Qed.

Lemma get_google_usage_postcondition_witness :
  exists t' e',
    Utils.get_google_usage april_2023 april_2023 "hello" march_table
      = (Returned (current_usage e'), t') /\
    stored t' = Returned e' /\
    Utils.last_reset_date e' = Utils.current_date april_2023 april_2023 /\
    (0 <= 1234 -> len "hello" <= current_usage e').
Proof.
  apply (get_google_usage_postcondition april_2023 april_2023 "hello"
           march_table
           {| pk := 2; name := "Google"; current_usage := 1234;
              month_usage_last_reset := 3; year_usage_last_reset := 2023 |}).
  reflexivity.
Defined.

(** X5. The two readings of the clock can fall on either side of New Year:
    the month is then read in December of year [y] and the year in January
    of [y + 1], the date stored is (12, [y + 1]), the date of neither
    reading, and the next call, if it comes in December of [y + 1], adds its
    length to the usage of that year-old call. *)
Theorem get_google_usage_new_year
    (y : Z) (now1 now2 dec : datetime) (text1 text2 : string)
    (t : Table) (e : Engine) :
  stored t = Returned e ->
  month now1 = 12 -> year now1 = y ->
  month now2 = 1 -> year now2 = y + 1 ->
  month dec = 12 -> year dec = y + 1 ->
  exists t1 e1,
    Utils.get_google_usage now1 now2 text1 t
      = (Returned (current_usage e1), t1) /\
    stored t1 = Returned e1 /\
    Utils.last_reset_date e1 = (12, y + 1) /\
    Utils.last_reset_date e1 <> (month now1, year now1) /\
    Utils.last_reset_date e1 <> (month now2, year now2) /\
    fst (Utils.get_google_usage dec dec text2 t1)
      = Returned (current_usage e1 + len text2).
Proof.
  intros S M1 Y1 M2 Y2 Md Yd.
  destruct (get_google_usage_dated now1 now2 text1 t e S)
    as (t1 & e1 & R & St & L).
  unfold Utils.current_date in L. rewrite M1, Y2 in L.
  exists t1, e1. split; [exact R|]. split; [exact St|]. split; [exact L|].
  split; [|split].
  - rewrite L, M1, Y1. intros H. injection H as H. lia.
  - rewrite L, M2, Y2. intros H. injection H as H. discriminate H.
  - assert (D : date_eqb (Utils.last_reset_date e1)
                  (Utils.current_date dec dec) = true).
    { apply date_eqb_eq. rewrite L. unfold Utils.current_date.
      rewrite Md, Yd. reflexivity. }
    destruct (get_google_usage_add dec dec text2 t1 e1 St D) as (t2 & R2 & _).
    rewrite R2. reflexivity.
Qed.

Lemma get_google_usage_new_year_witness :
  exists t1 e1,
    Utils.get_google_usage december_2023 january_2024 "hello" march_table
      = (Returned (current_usage e1), t1) /\
    stored t1 = Returned e1 /\
    Utils.last_reset_date e1 = (12, 2023 + 1) /\
    Utils.last_reset_date e1 <> (month december_2023, year december_2023) /\
    Utils.last_reset_date e1 <> (month january_2024, year january_2024) /\
    fst (Utils.get_google_usage december_2024 december_2024 "ab" t1)
      = Returned (current_usage e1 + len "ab").
Proof.
  apply (get_google_usage_new_year 2023 december_2023 january_2024
           december_2024 "hello" "ab" march_table
           {| pk := 2; name := "Google"; current_usage := 1234;
              month_usage_last_reset := 3; year_usage_last_reset := 2023 |});
    reflexivity.
Defined.

Lemma resets_in_other_months (d : Z * Z) (cs : list call) :
  forall steps,
    Forall (fun c => call_date c <> d) cs ->
    resets_in d cs steps = 0%nat.
Proof.
  induction cs as [|c cs IH]; intros steps F; [reflexivity|].
  destruct steps as [|s ss]; [reflexivity|].
  inversion F as [|c0 cs0 Hc Hcs]; subst. simpl.
  apply date_eqb_neq in Hc. rewrite Hc. simpl. apply IH. exact Hcs.
Qed.

Lemma date_le_antisym_step (d0 dc r : Z * Z) :
  date_le d0 dc -> dc <> d0 -> date_le dc r -> r <> d0.
Proof.
  destruct d0 as [m0 y0], dc as [mc yc], r as [mr yr].
  unfold date_le. simpl. intros H N H' E. injection E as -> ->.
  apply N. f_equal; lia.
Qed.

(** In a chronological run that starts on a record reset for [d0]: no call
    of month [d0] resets, and no month sees two resets. *)
Lemma resets_sorted (cs : list call) :
  forall (t : Table) (e : Engine) (d0 : Z * Z),
    stored t = Returned e ->
    Utils.last_reset_date e = d0 ->
    StronglySorted date_le (d0 :: map call_date cs) ->
    resets_in d0 cs (fst (run cs t)) = 0%nat /\
    forall d, (resets_in d cs (fst (run cs t)) <= 1)%nat.
Proof.
  induction cs as [|c cs IH]; intros t e d0 S L Srt.
  - simpl. split; [reflexivity | intros d; lia].
  - rewrite run_cons.
    destruct (get_google_usage_dated (call_now1 c) (call_now2 c)
                (call_text c) t e S) as (t' & e' & R & St & L').
    rewrite R. simpl fst. simpl snd. cbn [resets_in step_reset].
    apply StronglySorted_inv in Srt. destruct Srt as [Srt Hd0].
    simpl in Srt, Hd0.
    inversion Hd0 as [|x l Hc Hrest]; subst x l.
    assert (Rd : reset_due (call_now1 c) (call_now2 c) t
                 = negb (date_eqb d0 (call_date c))).
    { unfold reset_due. rewrite S, L. reflexivity. }
    rewrite Rd.
    destruct (date_eqb d0 (call_date c)) eqn:Q.
    + apply date_eqb_eq in Q.
      assert (Srt' : StronglySorted date_le (d0 :: map call_date cs)).
      { rewrite Q. exact Srt. }
      assert (L0 : Utils.last_reset_date e' = d0).
      { rewrite L'. symmetry. exact Q. }
      destruct (IH t' e' d0 St L0 Srt') as [Z0 B].
      simpl negb. split.
      * rewrite andb_false_r. simpl. exact Z0.
      * intros d. rewrite andb_false_r. simpl. apply B.
    + apply date_eqb_neq in Q.
      destruct (IH t' e' (call_date c) St L' Srt) as [Z0 B].
      assert (N0 : resets_in d0 cs (fst (run cs t')) = 0%nat).
      { apply resets_in_other_months.
        apply StronglySorted_inv in Srt. destruct Srt as [_ Hall].
        rewrite Forall_map in Hall.
        eapply Forall_impl; [|exact Hall].
        intros c' Hc'. simpl in Hc'.
        eapply date_le_antisym_step; [exact Hc | | exact Hc'].
        intros E. apply Q. symmetry. exact E. }
      simpl negb. split.
      * rewrite andb_true_r. replace (date_eqb (call_date c) d0) with false
          by (symmetry; apply date_eqb_neq; intros E; apply Q; symmetry;
              exact E).
        simpl. exact N0.
      * intros d. rewrite andb_true_r.
        destruct (date_eqb (call_date c) d) eqn:Qd.
        -- apply date_eqb_eq in Qd. subst d. rewrite Z0. simpl. lia.
        -- simpl. apply B.
Qed.

(** X6. In a run whose calls come in chronological order, whatever the
    table holds at the start, the reset branch is taken at most once for any
    one [(month, year)]. *)
Theorem one_reset_per_month_in_chronological_run
    (calls : list call) (t : Table) (e : Engine) (d : Z * Z) :
  stored t = Returned e ->
  StronglySorted date_le (map call_date calls) ->
  (resets_in d calls (fst (run calls t)) <= 1)%nat.
Proof.
  intros S Srt. destruct calls as [|c cs]; [simpl; lia|].
  rewrite run_cons.
  destruct (get_google_usage_dated (call_now1 c) (call_now2 c)
              (call_text c) t e S) as (t' & e' & R & St & L').
  rewrite R. simpl fst. simpl snd. cbn [resets_in step_reset].
  destruct (resets_sorted cs t' e' (call_date c) St L' Srt) as [Z0 B].
  destruct (date_eqb (call_date c) d) eqn:Qd.
  - apply date_eqb_eq in Qd. subst d. rewrite Z0.
    destruct (reset_due _ _ _); simpl; lia.
  - simpl. apply B.
Qed.

Lemma one_reset_per_month_in_chronological_run_witness :
  (resets_in (4%Z, 2023%Z)
     [march_call "abc"; april_call "hello"; april_call "ab"]
     (fst (run [march_call "abc"; april_call "hello"; april_call "ab"]
             march_table)) <= 1)%nat.
Proof.
  apply (one_reset_per_month_in_chronological_run
           [march_call "abc"; april_call "hello"; april_call "ab"]
           march_table
           {| pk := 2; name := "Google"; current_usage := 1234;
              month_usage_last_reset := 3; year_usage_last_reset := 2023 |}
           (4, 2023)).
  - reflexivity.
  - simpl. repeat constructor; unfold date_le; simpl; lia.
Defined.

Lemma last_cons_default (l : list (Z * Z)) :
  forall a d : Z * Z, last (a :: l) d = last l a.
Proof.
  induction l as [|b l IH]; intros a d; [reflexivity|].
  change (last (a :: b :: l) d) with (last (b :: l) d).
  rewrite (IH b d), (IH b a). reflexivity.
Qed.

Lemma date_le_last_all (d : Z * Z) (l : list (Z * Z)) :
  forall a, date_le d a -> Forall (date_le d) l -> date_le d (last l a).
Proof.
  induction l as [|b l IH]; intros a Ha F; [exact Ha|].
  inversion F as [|x l' Hb Hl]; subst.
  rewrite last_cons_default. apply IH; assumption.
Qed.

Lemma date_le_last (a : Z * Z) (l : list (Z * Z)) :
  StronglySorted date_le (a :: l) -> date_le a (last l a).
Proof.
  intros S. apply StronglySorted_inv in S. destruct S as [_ F].
  apply date_le_last_all; [|exact F].
  destruct a. unfold date_le. simpl. lia.
Qed.

(** In a chronological run from a record reset for [d0], the usage stored at
    the end counts the texts of the month of the last call. *)
Lemma run_month_total (cs : list call) :
  forall (t : Table) (e : Engine) (d0 : Z * Z),
    stored t = Returned e ->
    Utils.last_reset_date e = d0 ->
    StronglySorted date_le (d0 :: map call_date cs) ->
    exists e',
      stored (snd (run cs t)) = Returned e' /\
      Utils.last_reset_date e' = last (map call_date cs) d0 /\
      current_usage e' =
        (if date_eqb d0 (last (map call_date cs) d0)
         then current_usage e else 0)
        + total_len (month_texts (last (map call_date cs) d0) cs).
Proof.
  induction cs as [|c cs IH]; intros t e d0 S L Srt.
  - exists e. simpl. split; [exact S|]. split; [exact L|].
    replace (date_eqb d0 d0) with true
      by (symmetry; apply date_eqb_eq; reflexivity).
    unfold month_texts. simpl. lia.
  - rewrite run_cons.
    destruct (get_google_usage_step (call_now1 c) (call_now2 c)
                (call_text c) t e S) as (t' & R & St).
    rewrite R. simpl snd.
    change (map call_date (c :: cs)) with (call_date c :: map call_date cs).
    rewrite last_cons_default.
    pose proof Srt as Srt0.
    apply StronglySorted_inv in Srt. destruct Srt as [Srt Hd0].
    inversion Hd0 as [|x l Hc Hrest]; subst x l.
    assert (Rd : reset_due (call_now1 c) (call_now2 c) t
                 = negb (date_eqb d0 (call_date c))).
    { unfold reset_due. rewrite S, L. reflexivity. }
    rewrite Rd in St. cbn [map] in Srt.
    pose proof (date_le_last _ _ Srt) as HD.
    unfold month_texts. cbn [filter].
    destruct (date_eqb d0 (call_date c)) eqn:Q; simpl negb in St;
      cbv iota in St.
    + apply date_eqb_eq in Q. rewrite <- Q in *.
      destruct (IH t' _ d0 St L Srt) as (e' & S' & L' & U').
      exists e'. split; [exact S'|]. split; [exact L'|].
      rewrite U'. unfold month_texts.
      destruct (date_eqb d0 (last (map call_date cs) d0)); simpl; lia.
    + apply date_eqb_neq in Q.
      destruct (IH t' _ (call_date c) St eq_refl Srt) as (e' & S' & L' & U').
      exists e'. split; [exact S'|]. split; [exact L'|].
      rewrite U'. unfold month_texts.
      assert (N : date_eqb d0 (last (map call_date cs) (call_date c)) = false).
      { apply date_eqb_neq. intros E.
        apply (date_le_antisym_step d0 (call_date c)
                 (last (map call_date cs) (call_date c)) Hc); auto. }
      rewrite N.
      destruct (date_eqb (call_date c) (last (map call_date cs) (call_date c)));
        simpl; lia.
Qed.

(** X7. In a chronological run that starts no earlier than the last reset
    stored, the usage stored at the end is the total length of the texts of
    the calls made in the month of the last call, to which the usage stored
    at the start is added only if that month is still the month of that
    reset; the date stored is that of the last call. *)
Theorem usage_is_total_of_current_month
    (calls : list call) (t : Table) (e : Engine) :
  stored t = Returned e ->
  StronglySorted date_le (Utils.last_reset_date e :: map call_date calls) ->
  exists e',
    stored (snd (run calls t)) = Returned e' /\
    Utils.last_reset_date e'
      = last (map call_date calls) (Utils.last_reset_date e) /\
    current_usage e' =
      (if date_eqb (Utils.last_reset_date e)
            (last (map call_date calls) (Utils.last_reset_date e))
       then current_usage e else 0)
      + total_len
          (month_texts (last (map call_date calls) (Utils.last_reset_date e))
             calls).
Proof.
  intros S Srt. apply (run_month_total calls t e _ S eq_refl Srt).
Qed.

Lemma usage_is_total_of_current_month_witness :
  exists e',
    stored (snd (run [march_call "abc"; april_call "hello"; april_call "ab"]
                   march_table)) = Returned e' /\
    Utils.last_reset_date e' = (4, 2023) /\
    current_usage e' = 0 + total_len ["hello"; "ab"].
Proof.
  apply (usage_is_total_of_current_month
           [march_call "abc"; april_call "hello"; april_call "ab"]
           march_table
           {| pk := 2; name := "Google"; current_usage := 1234;
              month_usage_last_reset := 3; year_usage_last_reset := 2023 |}).
  - reflexivity.
  - simpl. repeat constructor; unfold date_le; simpl; lia.
Defined.

(** X8. What [call_google_api_v3] of [utils.py] does to the table and the
    usage it returns depend on the text and the clock only: two requests for
    the same text give the same usage and leave the same table whatever the
    two services answered and whatever the languages were. *)
Theorem call_google_api_v3_usage_ignores_service
    (sdk1 sdk2 : google_sdk) (now1 now2 : datetime) (source_text : string)
    (source_lang1 target_lang1 source_lang2 target_lang2 : string)
    (t : Table) :
  outcome_map snd
    (fst (Utils.call_google_api_v3 sdk1 now1 now2 source_text
            source_lang1 target_lang1 t))
  = outcome_map snd
      (fst (Utils.call_google_api_v3 sdk2 now1 now2 source_text
              source_lang2 target_lang2 t)) /\
  snd (Utils.call_google_api_v3 sdk1 now1 now2 source_text
         source_lang1 target_lang1 t)
  = snd (Utils.call_google_api_v3 sdk2 now1 now2 source_text
           source_lang2 target_lang2 t).
Proof.
  unfold Utils.call_google_api_v3, bind.
  destruct (Utils.get_google_usage now1 now2 source_text t) as [[u|ex] t'];
    split; reflexivity.
Qed.

(** ** The adapters *)

Lemma google_try_block_truthy (sdk : google_sdk)
    (source_text source_lang target_lang result : string) :
  Utils.google_try_block sdk source_text source_lang target_lang
    = Returned result ->
  truthy_str result = true.
Proof.
  unfold Utils.google_try_block.
  destruct (google_client sdk) as [u|ex]; [|discriminate].
  destruct (google_project_id sdk) as [p|ex]; [|discriminate].
  destruct (google_translate_text sdk _ source_text source_lang target_lang)
    as [[|tr more]|ex]; try discriminate.
  destruct (truthy_str tr) eqn:T; intros H; injection H as <-.
  - exact T.
  - reflexivity.
Qed.

Lemma google_result_truthy (sdk : google_sdk)
    (source_text source_lang target_lang : string) :
  truthy_str (Utils.google_result sdk source_text source_lang target_lang)
    = true.
Proof.
  unfold Utils.google_result.
  destruct (Utils.google_try_block sdk source_text source_lang target_lang)
    as [r|ex] eqn:G.
  - apply (google_try_block_truthy _ _ _ _ _ G).
  - reflexivity.
Qed.

(** X9. The Google adapter never hands back an empty string, whatever the
    service does: the result is a non-empty translation or a placeholder;
    and the adapter of [views.py] returns the very result that the one of
    [utils.py] pairs with the usage. *)
Theorem google_result_never_empty (sdk : google_sdk)
    (source_text source_lang target_lang : string) :
  Utils.google_result sdk source_text source_lang target_lang <> "" /\
  Views.call_google_api_v3 sdk source_text source_lang target_lang
    = Returned (Utils.google_result sdk source_text source_lang target_lang).
Proof.
  split.
  - pose proof (google_result_truthy sdk source_text source_lang target_lang)
      as T.
    intros E. rewrite E in T. discriminate T.
  - unfold Views.call_google_api_v3, Utils.google_result.
    destruct (Utils.google_try_block sdk source_text source_lang target_lang);
      reflexivity.
Qed.

(** X10. When the Google service answers the request for the parent
    [projects/<id>/locations/global], the result is the first translation if
    it is not empty; an answer without translations gives the placeholder of
    the [IndexError] raised by [[0]], and an empty first translation the fixed
    placeholder. *)
Theorem google_result_of_answer (sdk : google_sdk)
    (source_text source_lang target_lang project_id : string)
    (translations : list string) :
  google_client sdk = Returned tt ->
  google_project_id sdk = Returned project_id ->
  google_translate_text sdk ("projects/" ++ project_id ++ "/locations/global")
    source_text source_lang target_lang = Returned translations ->
  Utils.google_result sdk source_text source_lang target_lang =
    match translations with
    | [] => "(Error: list index out of range)"
    | "" :: _ => "(Error: Translation not included in response from Google)"
    | translated_text :: _ => translated_text
    end.
Proof.
  intros C P T. unfold Utils.google_result, Utils.google_try_block.
  rewrite C, P. cbv zeta.
  change ("/locations/" ++ "global") with "/locations/global". rewrite T.
  destruct translations as [|[|a tr] more]; reflexivity.
Qed.

Lemma google_result_of_answer_witness :
  Utils.google_result google_no_translations "hello" "en" "ja"
    = "(Error: list index out of range)".
Proof.
  apply (google_result_of_answer google_no_translations "hello" "en" "ja"
           "honyaku" []); reflexivity.
Defined.

(** X11. In [views.py], when one of the three DeepL calls raises, whatever
    the class of the exception: if no translation had been obtained,
    [call_deepl_api] returns the placeholder of the handler as the result
    and ["(Error)"] as the usage; if the translation had been obtained, the
    handler adds a [str] to the [TextResult] and the [TypeError] leaves the
    adapter. *)
Theorem views_call_deepl_api_on_failure (sdk : deepl_sdk)
    (source_text source_lang target_lang : string) (ex : exc) :
  deepl_first_failure sdk source_text source_lang target_lang = Some ex ->
  Views.call_deepl_api sdk source_text source_lang target_lang =
    if deepl_fails_after_translation sdk source_text source_lang target_lang
    then Raised TextResult_add_error
    else Returned (views_placeholder ex).
Proof.
  intros F.
  destruct (deepl_fails_after_translation sdk source_text
              source_lang target_lang) eqn:L.
  - apply views_call_deepl_api_late_failure. exact L.
  - apply views_call_deepl_api_early_failure; assumption.
Qed.

Lemma views_call_deepl_api_on_failure_witness :
  Views.call_deepl_api deepl_usage_down "konnichiwa" "ja" "en-us"
    = Raised TextResult_add_error /\
  Views.call_deepl_api deepl_no_key "hello" "en" "ja"
    = Returned
        (PStr "(Error: Environment variable DEEPL_AUTH_KEY not set)",
         PStr "(Error)").
Proof.
  split.
  - apply (views_call_deepl_api_on_failure deepl_usage_down
             "konnichiwa" "ja" "en-us"
             (mk_exc DeepLException "Connection failed")).
    reflexivity.
  - apply (views_call_deepl_api_on_failure deepl_no_key "hello" "en" "ja"
             (mk_exc EnvError "Environment variable DEEPL_AUTH_KEY not set")).
    reflexivity.
Defined.

(** X12. When none of the three DeepL calls raises, the adapters of
    [utils.py] and of [views.py] return the same pair: the translation and
    the character count, both as the service gave them. *)
Theorem call_deepl_api_versions_agree (sdk : deepl_sdk)
    (source_text source_lang target_lang : string) :
  deepl_first_failure sdk source_text source_lang target_lang = None ->
  exists translation usage,
    deepl_translate_text sdk source_text source_lang target_lang
      = Returned translation /\
    deepl_usage_count sdk = Returned usage /\
    Utils.call_deepl_api sdk source_text source_lang target_lang
      = Returned (PTextResult translation, usage) /\
    Views.call_deepl_api sdk source_text source_lang target_lang
      = Returned (PTextResult translation, usage).
Proof.
  unfold deepl_first_failure, Utils.call_deepl_api, Views.call_deepl_api,
    Views.deepl_try_block.
  destruct (deepl_Translator sdk) as [u|e1]; [|discriminate].
  destruct (deepl_translate_text sdk source_text source_lang target_lang)
    as [tr|e2]; [|discriminate].
  destruct (deepl_usage_count sdk) as [c|e3]; [|discriminate].
  intros _. exists tr, c. repeat split.
Qed.

Lemma call_deepl_api_versions_agree_witness :
  exists translation usage,
    deepl_translate_text deepl_working "konnichiwa" "ja" "en-us"
      = Returned translation /\
    deepl_usage_count deepl_working = Returned usage /\
    Utils.call_deepl_api deepl_working "konnichiwa" "ja" "en-us"
      = Returned (PTextResult translation, usage) /\
    Views.call_deepl_api deepl_working "konnichiwa" "ja" "en-us"
      = Returned (PTextResult translation, usage).
Proof.
  apply (call_deepl_api_versions_agree deepl_working
           "konnichiwa" "ja" "en-us").
  reflexivity.
Defined.

(** X13. [call_deepl_api] of [utils.py] raises exactly when the first DeepL
    call to fail raises something that is no [DeepLException], and it then
    raises that very exception: it never raises a [DeepLException] and never
    an exception of its own. *)
Theorem utils_call_deepl_api_raises_iff (sdk : deepl_sdk)
    (source_text source_lang target_lang : string) (ex : exc) :
  Utils.call_deepl_api sdk source_text source_lang target_lang = Raised ex
  <->
  deepl_first_failure sdk source_text source_lang target_lang = Some ex /\
  isinstance_DeepLException ex = false.
Proof.
  unfold Utils.call_deepl_api, deepl_first_failure.
  destruct (deepl_Translator sdk) as [u|e1].
  - destruct (deepl_translate_text sdk source_text source_lang target_lang)
      as [tr|e2].
    + destruct (deepl_usage_count sdk) as [c|e3].
      * split; [discriminate | intros [H _]; discriminate H].
      * destruct (isinstance_DeepLException e3) eqn:D; split.
        -- discriminate.
        -- intros [H K]. injection H as <-. congruence.
        -- intros H. injection H as <-. split; [reflexivity | exact D].
        -- intros [H _]. injection H as <-. reflexivity.
    + destruct (isinstance_DeepLException e2) eqn:D; split.
      * discriminate.
      * intros [H K]. injection H as <-. congruence.
      * intros H. injection H as <-. split; [reflexivity | exact D].
      * intros [H _]. injection H as <-. reflexivity.
  - destruct (isinstance_DeepLException e1) eqn:D; split.
    + discriminate.
    + intros [H K]. injection H as <-. congruence.
    + intros H. injection H as <-. split; [reflexivity | exact D].
    + intros [H _]. injection H as <-. reflexivity.
Qed.

Lemma utils_call_deepl_api_raises_iff_witness :
  Utils.call_deepl_api deepl_no_key "hello" "en" "ja"
    = Raised (mk_exc EnvError "Environment variable DEEPL_AUTH_KEY not set").
Proof.
  apply (proj2 (utils_call_deepl_api_raises_iff deepl_no_key "hello" "en" "ja"
                  (mk_exc EnvError
                     "Environment variable DEEPL_AUTH_KEY not set"))).
  split; reflexivity.
Defined.

(** ** The resolver and the form page *)

(** X14. The two copies of [translation_direction] are the same function;
    whatever the label, the source and target languages differ and the
    target is never ["en"], which DeepL refuses as a target; and the source
    is Japanese for the label ["Ja>En"] only. *)
Theorem translation_direction_range (direction : string) :
  Utils.translation_direction direction
    = Views.translation_direction direction /\
  snd (Utils.translation_direction direction) <> "en" /\
  fst (Utils.translation_direction direction)
    <> snd (Utils.translation_direction direction) /\
  (fst (Utils.translation_direction direction) = "ja"
   <-> direction = "Ja>En").
Proof.
  unfold Utils.translation_direction, Views.translation_direction.
  destruct (String.eqb direction "Ja>En") eqn:Q; simpl.
  - apply String.eqb_eq in Q.
    repeat split; try discriminate; auto.
  - apply String.eqb_neq in Q.
    repeat split; try discriminate; auto. intros H. contradiction.
Qed.

(** [call_deepl_api] of [views.py] returns unless a DeepL call fails after
    the translation was obtained. *)
Lemma views_call_deepl_api_returns_unless_late (sdk : deepl_sdk)
    (source_text source_lang target_lang : string) :
  deepl_fails_after_translation sdk source_text source_lang target_lang
    = false ->
  exists r,
    Views.call_deepl_api sdk source_text source_lang target_lang = Returned r.
Proof.
  intros L.
  destruct (deepl_first_failure sdk source_text source_lang target_lang)
    as [ex|] eqn:F.
  - exists (views_placeholder ex).
    apply views_call_deepl_api_early_failure; assumption.
  - destruct (views_call_deepl_api_no_failure sdk source_text
                source_lang target_lang F) as (tr & u & _ & _ & H).
    eexists. exact H.
Qed.

(** X15. What [homepage_view] does with any request: a valid POST for which
    a DeepL call fails after the translation was obtained raises the
    [TypeError] of the adapter's handler; every other request, whatever its
    method, its data and the behaviour of the two services, gets a response
    of status 200, the page of results exactly for a valid POST and the page
    of the form otherwise. *)
Theorem homepage_view_response
    (cleaned_data : list (string * string) -> option (string * string))
    (deepl : deepl_sdk) (google : google_sdk) (request : HttpRequest) :
  if valid_post_late_failure cleaned_data deepl request
  then Views.homepage_view cleaned_data deepl google request
         = Raised TextResult_add_error
  else
    exists response,
      Views.homepage_view cleaned_data deepl google request
        = Returned response /\
      status_code response = 200 /\
      (template_name response = "output.html" \/
       template_name response = "input.html") /\
      (template_name response = "output.html" <->
       method request = "POST" /\ cleaned_data (POST request) <> None).
Proof.
  unfold valid_post_late_failure, Views.homepage_view.
  destruct (String.eqb (method request) "POST") eqn:Q; simpl andb.
  - apply String.eqb_eq in Q.
    destruct (cleaned_data (POST request)) as [[direction source_text]|].
    + destruct (Views.translation_direction direction)
        as [source_lang target_lang]. simpl fst. simpl snd.
      destruct (deepl_fails_after_translation deepl source_text
                  source_lang target_lang) eqn:L.
      * rewrite (views_call_deepl_api_late_failure deepl source_text
                   source_lang target_lang L). reflexivity.
      * destruct (views_call_deepl_api_returns_unless_late deepl source_text
                    source_lang target_lang L)
          as [[deepl_result deepl_usage] Hd].
        destruct (views_call_google_api_v3_returns google source_text
                    source_lang target_lang) as [google_result Hg].
        rewrite Hd, Hg. eexists. split; [reflexivity|]. simpl.
        split; [reflexivity|]. split; [left; reflexivity|].
        split; [intros _; split; [exact Q | discriminate] | reflexivity].
    + eexists. split; [reflexivity|]. simpl.
      split; [reflexivity|]. split; [right; reflexivity|].
      split; [discriminate | intros [_ H]; congruence].
  - apply String.eqb_neq in Q.
    eexists. split; [reflexivity|]. simpl.
    split; [reflexivity|]. split; [right; reflexivity|].
    split; [discriminate | intros [H _]; contradiction].
Qed.

(** X16. A request that is no valid POST gets the page of the form, and the
    services play no part in the response: a POST whose form is not valid
    gets the form bound to the posted data, any other method the empty
    form. *)
Theorem homepage_view_input_page
    (cleaned_data : list (string * string) -> option (string * string))
    (deepl : deepl_sdk) (google : google_sdk) (request : HttpRequest) :
  method request <> "POST" \/ cleaned_data (POST request) = None ->
  Views.homepage_view cleaned_data deepl google request =
    Returned (render request "input.html"
      [("form",
        CForm {| form_data :=
                   if String.eqb (method request) "POST"
                   then Some (POST request) else None |})]).
Proof.
  intros H. unfold Views.homepage_view.
  destruct (String.eqb (method request) "POST") eqn:Q.
  - destruct H as [H|H].
    + apply String.eqb_eq in Q. contradiction.
    + rewrite H. reflexivity.
  - reflexivity.
Qed.

Lemma homepage_view_input_page_witness :
  Views.homepage_view sample_cleaned_data deepl_working google_working
    invalid_post_request =
    Returned (render invalid_post_request "input.html"
      [("form", CForm {| form_data := Some (POST invalid_post_request) |})]).
Proof.
  apply (homepage_view_input_page sample_cleaned_data deepl_working
           google_working invalid_post_request).
  right. reflexivity.
Defined.

(** X17. For a valid POST the view hands the cleaned text and the languages
    of the resolver to both adapters; unless a DeepL call fails after the
    translation was obtained, it shows what they return: the page of results
    holds the nine entries in the order of the source, the text and the
    languages, each result with the length of its [str], the DeepL usage,
    and a Google result that is never empty. *)
Theorem homepage_view_output_context
    (cleaned_data : list (string * string) -> option (string * string))
    (deepl : deepl_sdk) (google : google_sdk) (request : HttpRequest)
    (direction source_text : string) :
  method request = "POST" ->
  cleaned_data (POST request) = Some (direction, source_text) ->
  deepl_fails_after_translation deepl source_text
    (fst (Views.translation_direction direction))
    (snd (Views.translation_direction direction)) = false ->
  exists response deepl_result deepl_usage google_result,
    Views.homepage_view cleaned_data deepl google request
      = Returned response /\
    Views.call_deepl_api deepl source_text
      (fst (Views.translation_direction direction))
      (snd (Views.translation_direction direction))
      = Returned (deepl_result, deepl_usage) /\
    Views.call_google_api_v3 google source_text
      (fst (Views.translation_direction direction))
      (snd (Views.translation_direction direction))
      = Returned google_result /\
    google_result <> "" /\
    status_code response = 200 /\
    template_name response = "output.html" /\
    context response =
      [ ("source_text", CPy (PStr source_text));
        ("source_text_length", CPy (PInt (len source_text)));
        ("source_lang",
          CPy (PStr (fst (Views.translation_direction direction))));
        ("target_lang",
          CPy (PStr (snd (Views.translation_direction direction))));
        ("deepl_result", CPy deepl_result);
        ("deepl_result_length", CPy (PInt (len (py_str deepl_result))));
        ("deepl_usage", CPy deepl_usage);
        ("google_result", CPy (PStr google_result));
        ("google_result_length", CPy (PInt (len google_result))) ].
Proof.
  intros P V L. unfold Views.homepage_view. rewrite P, V. simpl String.eqb.
  cbv iota.
  destruct (Views.translation_direction direction)
    as [source_lang target_lang]. simpl fst in *. simpl snd in *.
  destruct (views_call_deepl_api_returns_unless_late deepl source_text
              source_lang target_lang L) as [[deepl_result deepl_usage] Hd].
  destruct (views_call_google_api_v3_returns google source_text
              source_lang target_lang) as [google_result Hg].
  rewrite Hd, Hg.
  exists (render request "output.html"
      [ ("source_text", CPy (PStr source_text));
        ("source_text_length", CPy (PInt (len source_text)));
        ("source_lang", CPy (PStr source_lang));
        ("target_lang", CPy (PStr target_lang));
        ("deepl_result", CPy deepl_result);
        ("deepl_result_length", CPy (PInt (len (py_str deepl_result))));
        ("deepl_usage", CPy deepl_usage);
        ("google_result", CPy (PStr google_result));
        ("google_result_length", CPy (PInt (len google_result))) ]),
    deepl_result, deepl_usage, google_result.
  split; [reflexivity|]. split; [reflexivity|]. split; [reflexivity|].
  split; [|repeat split; reflexivity].
  unfold Views.call_google_api_v3 in Hg.
  intros E. subst google_result.
  destruct (Utils.google_try_block google source_text source_lang target_lang)
    as [r|ex] eqn:G.
  - injection Hg as ->.
    pose proof (google_try_block_truthy _ _ _ _ _ G) as T. discriminate T.
  - discriminate Hg.
Qed.

Lemma homepage_view_output_context_witness :
  exists response deepl_result deepl_usage google_result,
    Views.homepage_view sample_cleaned_data deepl_quota_exceeded
      google_working post_request = Returned response /\
    Views.call_deepl_api deepl_quota_exceeded "konnichiwa"
      (fst (Views.translation_direction "Ja>En"))
      (snd (Views.translation_direction "Ja>En"))
      = Returned (deepl_result, deepl_usage) /\
    Views.call_google_api_v3 google_working "konnichiwa"
      (fst (Views.translation_direction "Ja>En"))
      (snd (Views.translation_direction "Ja>En"))
      = Returned google_result /\
    google_result <> "" /\
    status_code response = 200 /\
    template_name response = "output.html" /\
    context response =
      [ ("source_text", CPy (PStr "konnichiwa"));
        ("source_text_length", CPy (PInt (len "konnichiwa")));
        ("source_lang",
          CPy (PStr (fst (Views.translation_direction "Ja>En"))));
        ("target_lang",
          CPy (PStr (snd (Views.translation_direction "Ja>En"))));
        ("deepl_result", CPy deepl_result);
        ("deepl_result_length", CPy (PInt (len (py_str deepl_result))));
        ("deepl_usage", CPy deepl_usage);
        ("google_result", CPy (PStr google_result));
        ("google_result_length", CPy (PInt (len google_result))) ].
Proof.
  apply (homepage_view_output_context sample_cleaned_data
           deepl_quota_exceeded google_working post_request
           "Ja>En" "konnichiwa");
    reflexivity.
Defined.
